(** * Country Currency API: a shallow embedding of [app.js]

    The repository ships two versions of the Express application:

    - the _full-replace_ server (module [FullReplace]): its refresh deletes
      every row and inserts the first 50 upstream records again;
    - the _upsert_ server (module [Upsert]): its refresh looks each of the
      first 10 upstream records up by name and updates or inserts it, and
      keeps the time of the last refresh in the process-global
      [lastRefreshTime].

    Both are embedded below as pure functions over an explicit server state.
    JavaScript values are the values [JSON.parse] can produce, [undefined],
    and the built-in functions and prototype objects a property read reaches
    from them.  A number is [NaN], an infinity, or a finite value given by
    the rational it denotes; products, quotients and sums are rounded to the
    nearest binary64 value as IEEE 754 prescribes ([round64]).  A
    conversion to a number or to a string throws where [ToPrimitive] does.
    What the JavaScript engine, [mysql2] and MySQL do on inputs the source
    does not determine (the number a string or an object stands for,
    engine-side value checks, the values returned by [Math.random]) is
    collected in the record [World], over which every definition is
    parameterised. *)

From Stdlib Require Import ZArith QArith Qround Qabs Qpower.
From Stdlib Require Import Bool List Ascii String Lia.
From Stdlib Require Import DecimalString.
From Stdlib Require Import Sorting.Sorted.
Import ListNotations.

#[local] Set Warnings "-register-all".
Local Open Scope string_scope.
Local Open Scope Z_scope.

(** ** JavaScript values *)

(** A JavaScript number. *)
Inductive num : Type :=
| NaN
| Inf (negative : bool)
| Fin (q : Q).

(** The built-in prototype objects the values of a parsed document
    inherit from. *)
Inductive Proto : Type :=
| ObjectProto
| ArrayProto
| StringProto
| NumberProto
| BooleanProto.

(** The properties of an object are listed in the order in which the
    engine enumerates them, each key once.  [JFun home key] is the built-in
    function stored under [key] on the prototype [home], [JProto p] the
    prototype object itself. *)
Inductive JsVal : Type :=
| JUndefined
| JNull
| JBool (b : bool)
| JNum (n : num)
| JStr (s : string)
| JArr (elems : list JsVal)
| JObj (props : list (string * JsVal))
| JFun (home : Proto) (key : string)
| JProto (p : Proto).

Definition Time : Type := Z.

(** Thrown values: the handlers only ever look at [code] and [response]. *)
Record JsError : Type := mkError {
  err_message : string;
  err_code : JsVal;
  err_response : JsVal
}.

Definition TypeError (msg : string) : JsError :=
  mkError msg JUndefined JUndefined.

(** Computations that may throw. *)
Inductive Exn (A : Type) : Type :=
| Ret (a : A)
| Throw (e : JsError).
Arguments Ret {A} a.
Arguments Throw {A} e.

Definition bind {A B : Type} (c : Exn A) (k : A -> Exn B) : Exn B :=
  match c with
  | Ret a => k a
  | Throw e => Throw e
  end.

Notation "x <- c ;; k" := (bind c (fun x => k))
  (at level 61, c at next level, right associativity).

(** What the source leaves to its environment. *)
Record World : Type := mkWorld {
  (** [parseFloat] on an argument that is not already a number *)
  parseFloat_of : JsVal -> num;
  (** [ToNumber] on strings, arrays and objects *)
  to_number_of : JsVal -> num;
  (** [ToPropertyKey] on a value that is not a string *)
  to_key_of : JsVal -> string;
  (** the value returned by the [k]-th call of [Math.random] *)
  random : nat -> Q;
  (** value checks of the database engine beyond the declared constraints
      (type and range errors of a column) *)
  engine_rejects : list JsVal -> bool
}.


(** *** Numbers

    Results are kept in lowest terms, so that equal numbers are equal
    terms. *)

Definition Qzero (q : Q) : bool := Qeq_bool q 0.
Definition Qneg (q : Q) : bool := negb (Qle_bool 0 q).

(** **** Rounding to binary64

    A finite binary64 value is [m * 2 ^ e] for an integer [m] of at most 53
    bits and [-1074 <= e <= 971].  A real number is rounded to the nearest
    such value, ties going to the even [m]; what rounds to [2 ^ 1024] or
    beyond becomes an infinity.  (The sign of a zero is not kept.) *)

Definition pow2 (e : Z) : Q := Qpower 2 e.

(** The integer nearest to [x], ties to even. *)
Definition rne (x : Q) : Z :=
  let f := Qfloor x in
  match Qcompare (x - inject_Z f) (1 # 2) with
  | Lt => f
  | Gt => f + 1
  | Eq => if Z.even f then f else f + 1
  end.

(** For [0 < q]: the [l] with [2 ^ l <= q < 2 ^ (l + 1)]. *)
Definition ilog2 (q : Q) : Z :=
  let l := Z.log2 (Qnum q) - Z.log2 (Zpos (Qden q)) in
  if Qle_bool (pow2 l) q then l else l - 1.

(** The magnitude [0 < a] rounded to 53 bits, the exponent not going below
    that of the subnormal numbers. *)
Definition rounded (a : Q) : Q :=
  let e := Z.max (ilog2 a - 52) (-1074) in
  (inject_Z (rne (a / pow2 e)) * pow2 e)%Q.

Definition round64 (q : Q) : num :=
  if Qzero q then Fin 0
  else
    let v := rounded (Qabs q) in
    if Qle_bool (pow2 1024) v then Inf (Qneg q)
    else Fin (Qred (if Qneg q then (- v)%Q else v)).

(** [a * b] *)
Definition num_mul (a b : num) : num :=
  match a, b with
  | NaN, _ | _, NaN => NaN
  | Fin x, Fin y => round64 (x * y)
  | Inf s, Inf t => Inf (xorb s t)
  | Inf s, Fin y | Fin y, Inf s =>
      if Qzero y then NaN else Inf (xorb s (Qneg y))
  end.

(** [a / b]; a zero divisor counts as [+0] *)
Definition num_div (a b : num) : num :=
  match a, b with
  | NaN, _ | _, NaN => NaN
  | Fin x, Fin y =>
      if Qzero y then (if Qzero x then NaN else Inf (Qneg x))
      else round64 (x / y)
  | Inf _, Inf _ => NaN
  | Inf s, Fin y => Inf (xorb s (Qneg y))
  | Fin _, Inf _ => Fin 0
  end.

(** [a + b] *)
Definition num_add (a b : num) : num :=
  match a, b with
  | NaN, _ | _, NaN => NaN
  | Fin x, Fin y => round64 (x + y)
  | Inf s, Inf t => if Bool.eqb s t then Inf s else NaN
  | Inf s, Fin _ | Fin _, Inf s => Inf s
  end.



(** [a > b] *)
Definition num_gt (a b : num) : bool :=
  match a, b with
  | NaN, _ | _, NaN => false
  | Fin x, Fin y => negb (Qle_bool x y)
  | Inf s, Inf t => negb s && t
  | Inf s, Fin _ => negb s
  | Fin _, Inf t => t
  end.

Definition num_of_nat (n : nat) : num := Fin (inject_Z (Z.of_nat n)).
Definition num_of_Z (z : Z) : num := Fin (inject_Z z).

(** [(population * randomMultiplier) / exchangeRate] on finite operands *)
Definition estimate (p m x : Q) : num :=
  num_div (num_mul (Fin p) (Fin m)) (Fin x).

(** *** Truthiness, property access *)

Definition truthy (v : JsVal) : bool :=
  match v with
  | JUndefined | JNull => false
  | JBool b => b
  | JNum NaN => false
  | JNum (Inf _) => true
  | JNum (Fin q) => negb (Qzero q)
  | JStr s => negb (String.eqb s "")
  | JArr _ | JObj _ | JFun _ _ | JProto _ => true
  end.

Definition nullish (v : JsVal) : bool :=
  match v with
  | JUndefined | JNull => true
  | _ => false
  end.

(** [typeof v === 'function'] *)
Definition is_function (v : JsVal) : bool :=
  match v with JFun _ _ => true | _ => false end.

(** The values [JSON.parse] produces: no [undefined] and no built-in
    object, at any depth. *)
Fixpoint parsed (v : JsVal) : bool :=
  match v with
  | JUndefined | JFun _ _ | JProto _ => false
  | JNull | JBool _ | JNum _ | JStr _ => true
  | JArr l => forallb parsed l
  | JObj props => forallb (fun kv => parsed (snd kv)) props
  end.

(** [a || b] *)
Definition js_or (a b : JsVal) : JsVal := if truthy a then a else b.

Definition string_of_nat (n : nat) : string :=
  NilEmpty.string_of_uint (Nat.to_uint n).

(** The array index a property key denotes, if it is a canonical one. *)
Definition key_index (k : string) : option nat :=
  match NilEmpty.uint_of_string k with
  | Some u =>
      let n := Nat.of_uint u in
      if String.eqb (string_of_nat n) k then Some n else None
  | None => None
  end.

(** The own property [k] of an object. *)
Fixpoint lookup (k : string) (props : list (string * JsVal)) : option JsVal :=
  match props with
  | [] => None
  | (k', v) :: rest => if String.eqb k k' then Some v else lookup k rest
  end.

Definition chars (s : string) : list JsVal :=
  map (fun c => JStr (String c EmptyString)) (list_ascii_of_string s).

(** The own property [k] of an array or of a string: its [length] and its
    elements. *)
Definition indexed (l : list JsVal) (k : string) : option JsVal :=
  if String.eqb k "length" then Some (JNum (num_of_nat (List.length l)))
  else match key_index k with
       | Some i => nth_error l i
       | None => None
       end.

(** **** Inherited properties

    The string keys of the function-valued properties of the built-in
    prototypes (Node.js 20). *)

Definition object_prototype : list string :=
  ["constructor"; "__defineGetter__"; "__defineSetter__"; "hasOwnProperty";
   "__lookupGetter__"; "__lookupSetter__"; "isPrototypeOf";
   "propertyIsEnumerable"; "toString"; "valueOf"; "toLocaleString"].

Definition array_prototype : list string :=
  ["constructor"; "at"; "concat"; "copyWithin"; "fill"; "find"; "findIndex";
   "findLast"; "findLastIndex"; "lastIndexOf"; "pop"; "push"; "reverse";
   "shift"; "unshift"; "slice"; "sort"; "splice"; "includes"; "indexOf";
   "join"; "keys"; "entries"; "values"; "forEach"; "filter"; "flat";
   "flatMap"; "map"; "every"; "some"; "reduce"; "reduceRight";
   "toLocaleString"; "toString"; "toReversed"; "toSorted"; "toSpliced";
   "with"].

Definition string_prototype : list string :=
  ["constructor"; "anchor"; "at"; "big"; "blink"; "bold"; "charAt";
   "charCodeAt"; "codePointAt"; "concat"; "endsWith"; "fontcolor";
   "fontsize"; "fixed"; "includes"; "indexOf"; "isWellFormed"; "italics";
   "lastIndexOf"; "link"; "localeCompare"; "match"; "matchAll"; "normalize";
   "padEnd"; "padStart"; "repeat"; "replace"; "replaceAll"; "search";
   "slice"; "small"; "split"; "strike"; "sub"; "substr"; "substring"; "sup";
   "startsWith"; "toString"; "toWellFormed"; "trim"; "trimStart";
   "trimLeft"; "trimEnd"; "trimRight"; "toLocaleLowerCase";
   "toLocaleUpperCase"; "toLowerCase"; "toUpperCase"; "valueOf"].

Definition number_prototype : list string :=
  ["constructor"; "toExponential"; "toFixed"; "toPrecision"; "toString";
   "valueOf"; "toLocaleString"].

Definition boolean_prototype : list string :=
  ["constructor"; "toString"; "valueOf"].

Definition methods (p : Proto) : list string :=
  match p with
  | ObjectProto => object_prototype
  | ArrayProto => array_prototype
  | StringProto => string_prototype
  | NumberProto => number_prototype
  | BooleanProto => boolean_prototype
  end.

Definition has (k : string) (keys : list string) : bool :=
  existsb (String.eqb k) keys.

(** The property [k] as a value whose prototype is [p] inherits it: a
    function of [p], else one of [Object.prototype], else the accessor
    [__proto__] of [Object.prototype], which answers with the prototype of
    the receiver. *)
Definition inherited (p : Proto) (k : string) : JsVal :=
  if has k (methods p) then JFun p k
  else if has k object_prototype then JFun ObjectProto k
  else if String.eqb k "__proto__" then JProto p
  else JUndefined.

(** An own property if there is one, the inherited one otherwise. *)
Definition own_or (own : option JsVal) (p : Proto) (k : string) : JsVal :=
  match own with
  | Some v => v
  | None => inherited p k
  end.

(** The members of a built-in object itself.  The handlers read properties
    of parsed values only; of a built-in function the model has the members
    every object inherits, not its own [name] and [length], nor what
    [Function.prototype] adds or the static members of a constructor. *)
Definition builtin_member (v : JsVal) (k : string) : JsVal :=
  match v with
  | JProto ObjectProto =>
      if has k object_prototype then JFun ObjectProto k
      else if String.eqb k "__proto__" then JNull
      else JUndefined
  | JProto p =>
      if has k (methods p) then JFun p k
      else if String.eqb k "length"
      then match p with
           | ArrayProto | StringProto => JNum (Fin 0)
           | _ => JUndefined
           end
      else inherited ObjectProto k
  | _ => inherited ObjectProto k
  end.

Definition read_error (receiver k : string) : JsError :=
  TypeError ("Cannot read properties of " ++ receiver
             ++ " (reading '" ++ k ++ "')").

(** [v[k]] and [v.k].  Reading a property of [null] or [undefined]
    throws. *)
Definition get (v : JsVal) (k : string) : Exn JsVal :=
  match v with
  | JUndefined => Throw (read_error "undefined" k)
  | JNull => Throw (read_error "null" k)
  | JObj props => Ret (own_or (lookup k props) ObjectProto k)
  | JArr l => Ret (own_or (indexed l k) ArrayProto k)
  | JStr s => Ret (own_or (indexed (chars s) k) StringProto k)
  | JNum _ => Ret (inherited NumberProto k)
  | JBool _ => Ret (inherited BooleanProto k)
  | JFun _ _ | JProto _ => Ret (builtin_member v k)
  end.

(** [v?.k] *)
Definition get_opt (v : JsVal) (k : string) : JsVal :=
  match get v k with
  | Ret x => x
  | Throw _ => JUndefined
  end.

(** [Object.keys(v)] for a value that passed a truthiness test.  The
    properties of a [JObj] are kept in the engine's enumeration order. *)
Definition object_keys (v : JsVal) : list string :=
  match v with
  | JObj props => map fst props
  | JArr l => map string_of_nat (seq 0 (List.length l))
  | JStr s => map string_of_nat (seq 0 (String.length s))
  | _ => []
  end.

(** *** Conversions

    To turn an object into a number or a string the engine calls its
    [toString] and [valueOf].  An object of a parsed document inherits both
    from [Object.prototype]; an own member [toString], which no parsed
    document can make a function, leaves the conversion without a result
    ([Object.prototype.valueOf] answers with the object itself), and it
    throws.  An array converts its elements in turn. *)
Fixpoint convertible (v : JsVal) : bool :=
  match v with
  | JObj props =>
      match lookup "toString" props with
      | Some method => is_function method
      | None => true
      end
  | JArr l => forallb convertible l
  | _ => true
  end.

Definition conversion_error : JsError :=
  TypeError "Cannot convert object to primitive value".

(** A value interpolated into the text of a logged line: the text is not
    kept, the conversion may throw. *)
Definition interpolate (v : JsVal) : Exn unit :=
  if convertible v then Ret tt else Throw conversion_error.

Section Conversions.
Variable W : World.

Definition number_value (v : JsVal) : num :=
  match v with
  | JUndefined => NaN
  | JNull => Fin 0
  | JBool b => if b then Fin 1 else Fin 0
  | JNum n => n
  | JStr _ | JArr _ | JObj _ => to_number_of W v
  | JFun _ _ | JProto ObjectProto => NaN
  | JProto _ => Fin 0
  end.

(** [ToNumber], as the arithmetic operators and [>] apply it *)
Definition to_number (v : JsVal) : Exn num :=
  if convertible v then Ret (number_value v) else Throw conversion_error.

(** The string form of a function or of a prototype object starts with no
    digit, except that of [Number.prototype], which is ["0"]. *)
Definition float_value (v : JsVal) : num :=
  match v with
  | JNum n => n
  | JFun _ _ => NaN
  | JProto NumberProto => Fin 0
  | JProto _ => NaN
  | _ => parseFloat_of W v
  end.

(** [parseFloat(v)] *)
Definition parseFloat (v : JsVal) : Exn num :=
  if convertible v then Ret (float_value v) else Throw conversion_error.

Definition key_value (v : JsVal) : string :=
  match v with
  | JStr s => s
  | _ => to_key_of W v
  end.

(** [ToPropertyKey], applied to the [k] of [v[k]] *)
Definition to_key (v : JsVal) : Exn string :=
  if convertible v then Ret (key_value v) else Throw conversion_error.

(** [Math.floor] of a finite number *)
Definition floor (q : Q) : Z := Qfloor q.

(** [getRandomNumber(min, max)], given the value [r] of [Math.random()].
    The floor is that of the exact product. *)
Definition getRandomNumber (r : Q) (min max : Z) : Z :=
  floor (r * inject_Z (max - min + 1)) + min.
End Conversions.

(** ** The [countries] table

    [CREATE TABLE countries (id INT AUTO_INCREMENT PRIMARY KEY,
    name VARCHAR(255) NOT NULL UNIQUE, capital, region,
    population BIGINT NOT NULL, currency_code, exchange_rate, estimated_gdp,
    flag_url, last_refreshed_at TIMESTAMP DEFAULT CURRENT_TIMESTAMP)].

    A cell holds the bound parameter as it was passed ([JNull] is SQL
    [NULL]); the conversion to the column type and the collation of
    [VARCHAR] are not modelled.  The pool always hands out a connection.
    No handler opens a transaction, so every statement takes effect at once
    and the [COMMIT] and [ROLLBACK] the full-replace server sends change
    nothing. *)

Record Row : Type := mkRow {
  id : Z;
  name : JsVal;
  capital : JsVal;
  region : JsVal;
  population : JsVal;
  currency_code : JsVal;
  exchange_rate : JsVal;
  estimated_gdp : JsVal;
  flag_url : JsVal;
  last_refreshed_at : Time
}.

(** The eight values a refresh binds for one upstream record. *)
Record Country : Type := mkCountry {
  c_name : JsVal;
  c_capital : JsVal;
  c_region : JsVal;
  c_population : JsVal;
  c_currency_code : JsVal;
  c_exchange_rate : JsVal;
  c_estimated_gdp : JsVal;
  c_flag_url : JsVal
}.

Record Db : Type := mkDb {
  rows : list Row;
  next_id : Z
}.

(** The process: the database it talks to, the number of [Math.random]
    calls made so far and (upsert server only) [lastRefreshTime]. *)
Record Server : Type := mkServer {
  db : Db;
  draws : nat;
  lastRefreshTime : option Time
}.

Definition with_db (st : Server) (d : Db) : Server :=
  mkServer d (draws st) (lastRefreshTime st).

Definition with_draw (st : Server) : Server :=
  mkServer (db st) (S (draws st)) (lastRefreshTime st).

Definition is_undefined (v : JsVal) : bool :=
  match v with JUndefined => true | _ => false end.

Definition is_null (v : JsVal) : bool :=
  match v with JNull => true | _ => false end.

Definition num_eqb (a b : num) : bool :=
  match a, b with
  | Fin x, Fin y => Qeq_bool x y
  | Inf s, Inf t => Bool.eqb s t
  | _, _ => false
  end.

(** [column = ?]: by value on scalars of the same kind; [NULL] equals
    nothing. *)
Definition sql_eq (cell param : JsVal) : bool :=
  match cell, param with
  | JStr s, JStr t => String.eqb s t
  | JNum x, JNum y => num_eqb x y
  | JBool x, JBool y => Bool.eqb x y
  | _, _ => false
  end.

Definition named (nm : JsVal) (r : Row) : bool := sql_eq (name r) nm.

Definition bind_error : JsError :=
  TypeError "Bind parameters must not contain undefined. To pass SQL NULL specify JS null".

Definition bind_function_error : JsError :=
  TypeError "Bind parameters must not contain function(s). To pass the body of a function as a string call .toString() first".

(** The test [execute] of [mysql2] makes on each bound value in turn. *)
Fixpoint refused (ps : list JsVal) : option JsError :=
  match ps with
  | [] => None
  | p :: rest =>
      if is_undefined p then Some bind_error
      else if is_function p then Some bind_function_error
      else refused rest
  end.

Definition sql_error (code : string) : JsError :=
  mkError code (JStr code) JUndefined.

Section Statements.
Variable W : World.

(** Checks every [execute] of a write makes on its parameter list. *)
Definition check_params (ps : list JsVal) : Exn unit :=
  match refused ps with
  | Some e => Throw e
  | None =>
      if engine_rejects W ps then Throw (sql_error "ER_TRUNCATED_WRONG_VALUE")
      else Ret tt
  end.

Definition insert_params (c : Country) : list JsVal :=
  [c_name c; c_capital c; c_region c; c_population c; c_currency_code c;
   c_exchange_rate c; c_estimated_gdp c; c_flag_url c].

(** [INSERT INTO countries (name, ..., flag_url) VALUES (?, ..., ?)] *)
Definition insert (now : Time) (c : Country) (d : Db) : Exn Db :=
  _ <- check_params (insert_params c) ;;
  if is_null (c_name c) || is_null (c_population c)
  then Throw (sql_error "ER_BAD_NULL_ERROR")
  else if existsb (named (c_name c)) (rows d)
  then Throw (sql_error "ER_DUP_ENTRY")
  else Ret (mkDb (rows d ++
                  [mkRow (next_id d) (c_name c) (c_capital c) (c_region c)
                         (c_population c) (c_currency_code c)
                         (c_exchange_rate c) (c_estimated_gdp c)
                         (c_flag_url c) now])
                 (next_id d + 1)).

Definition update_params (c : Country) : list JsVal :=
  [c_capital c; c_region c; c_population c; c_currency_code c;
   c_exchange_rate c; c_estimated_gdp c; c_flag_url c; c_name c].

Definition update_row (now : Time) (c : Country) (r : Row) : Row :=
  if named (c_name c) r
  then mkRow (id r) (name r) (c_capital c) (c_region c) (c_population c)
             (c_currency_code c) (c_exchange_rate c) (c_estimated_gdp c)
             (c_flag_url c) now
  else r.

(** [UPDATE countries SET capital = ?, ..., flag_url = ?,
    last_refreshed_at = NOW() WHERE name = ?] *)
Definition update (now : Time) (c : Country) (d : Db) : Exn Db :=
  _ <- check_params (update_params c) ;;
  if is_null (c_population c)
  then Throw (sql_error "ER_BAD_NULL_ERROR")
  else Ret (mkDb (map (update_row now c) (rows d)) (next_id d)).

(** [SELECT ... FROM countries WHERE name = ?] *)
Definition select_by_name (nm : JsVal) (d : Db) : Exn (list Row) :=
  match refused [nm] with
  | Some e => Throw e
  | None => Ret (filter (named nm) (rows d))
  end.

(** [DELETE FROM countries WHERE name = ?]: the new table and
    [affectedRows] *)
Definition delete_by_name (nm : JsVal) (d : Db) : Exn (Db * nat) :=
  match refused [nm] with
  | Some e => Throw e
  | None =>
      Ret (mkDb (filter (fun r => negb (named nm r)) (rows d)) (next_id d),
           List.length (filter (named nm) (rows d)))
  end.

(** [DELETE FROM countries] *)
Definition delete_all (d : Db) : Db := mkDb [] (next_id d).

(** [SELECT COUNT( * ) FROM countries] *)
Definition count_all (d : Db) : nat := List.length (rows d).

(** [SELECT MAX(last_refreshed_at) FROM countries] *)
Definition max_last_refreshed_at (d : Db) : option Time :=
  match rows d with
  | [] => None
  | r :: rest =>
      Some (fold_left Z.max (map last_refreshed_at rest)
                      (last_refreshed_at r))
  end.
End Statements.

(** *** [SELECT * FROM countries WHERE 1=1 ... ORDER BY ...] *)

Inductive OrderBy : Type :=
| NameAsc
| GdpDesc
| GdpAsc
| PopulationDesc.

(** The statement [GET /countries] assembles: the filters that were
    appended, with their bound parameters, and the ordering clause. *)
Record Select : Type := mkSelect {
  where_region : option JsVal;
  where_currency : option JsVal;
  order_by : OrderBy
}.

Definition order_clause (o : OrderBy) : string :=
  match o with
  | NameAsc => " ORDER BY name ASC"
  | GdpDesc => " ORDER BY estimated_gdp DESC"
  | GdpAsc => " ORDER BY estimated_gdp ASC"
  | PopulationDesc => " ORDER BY population DESC"
  end.

(** The text of the query, as the handler concatenates it. *)
Definition sql_of (q : Select) : string :=
  "SELECT * FROM countries WHERE 1=1"
  ++ (match where_region q with Some _ => " AND region = ?" | None => "" end)
  ++ (match where_currency q with Some _ => " AND currency_code = ?" | None => "" end)
  ++ order_clause (order_by q).

Definition params_of (q : Select) : list JsVal :=
  (match where_region q with Some v => [v] | None => [] end)
  ++ (match where_currency q with Some v => [v] | None => [] end).

Definition num_leb (a b : num) : bool :=
  match a, b with
  | NaN, _ => true
  | _, NaN => false
  | Inf true, _ => true
  | _, Inf true => false
  | _, Inf false => true
  | Inf false, _ => false
  | Fin x, Fin y => Qle_bool x y
  end.

Definition kind_rank (v : JsVal) : nat :=
  match v with
  | JUndefined | JNull => 0
  | JBool _ | JNum _ => 1
  | JStr _ => 2
  | JArr _ | JObj _ | JFun _ _ | JProto _ => 3
  end.

(** Ascending order of a column: [NULL] first, numbers by value, strings
    by code point. *)
Definition sql_leb (a b : JsVal) : bool :=
  match a, b with
  | JNum x, JNum y => num_leb x y
  | JStr s, JStr t => String.leb s t
  | _, _ => Nat.leb (kind_rank a) (kind_rank b)
  end.

Definition row_leb (o : OrderBy) (a b : Row) : bool :=
  match o with
  | NameAsc => sql_leb (name a) (name b)
  | GdpAsc => sql_leb (estimated_gdp a) (estimated_gdp b)
  | GdpDesc => sql_leb (estimated_gdp b) (estimated_gdp a)
  | PopulationDesc => sql_leb (population b) (population a)
  end.

Fixpoint place (leb : Row -> Row -> bool) (r : Row) (l : list Row) : list Row :=
  match l with
  | [] => [r]
  | x :: rest => if leb r x then r :: l else x :: place leb r rest
  end.

Definition sort_rows (leb : Row -> Row -> bool) (l : list Row) : list Row :=
  fold_right (place leb) [] l.

Definition matches (filter_value : option JsVal) (cell : JsVal) : bool :=
  match filter_value with
  | Some v => sql_eq cell v
  | None => true
  end.

Definition run_select (q : Select) (d : Db) : list Row :=
  sort_rows (row_leb (order_by q))
    (filter (fun r => matches (where_region q) (region r)
                      && matches (where_currency q) (currency_code r))
            (rows d)).

(** ** Requests and responses *)

Inductive Body : Type :=
| BError (error : string) (details : option string)
| BRefreshed (message : string) (total_countries : nat) (refreshed_at : Time)
| BUpserted (message : string) (total_processed successful : nat)
            (refreshed_at : Time)
| BRows (found : list Row)
| BRow (found : Row)
| BStatus (total_countries : nat) (refreshed_at : option Time)
| BEmpty.

Record Response : Type := mkResponse {
  status : Z;
  body : Body
}.

(** The outcome of one [axios.get]: the decoded [response.data], or the
    error the promise was rejected with. *)
Definition Fetch : Type := Exn JsVal.

(** The error [axios] rejects with when the [timeout] of a request expires:
    code [ECONNABORTED] and no [response]. *)
Definition axios_timeout : JsError :=
  mkError "timeout of 30000ms exceeded" (JStr "ECONNABORTED") JUndefined.

(** Connection refused by the upstream host: no [response] either. *)
Definition axios_refused : JsError :=
  mkError "connect ECONNREFUSED" (JStr "ECONNREFUSED") JUndefined.

(** The upstream answered with a status outside 2xx. *)
Definition axios_bad_status (code : Z) : JsError :=
  mkError "Request failed" (JStr "ERR_BAD_RESPONSE")
          (JObj [("status", JNum (num_of_Z code))]).

(** [v === 'literal'] *)
Definition is_string (v : JsVal) (s : string) : bool :=
  match v with
  | JStr t => String.eqb t s
  | _ => false
  end.

(** [countries.slice(0, n)], then iterated by [for ... of]: among the
    parsed values only arrays and strings have a [slice] to call (the two
    prototypes themselves are an empty array and an empty string). *)
Definition slice_prefix (countries : JsVal) (n : nat) : Exn (list JsVal) :=
  match countries with
  | JUndefined => Throw (read_error "undefined" "slice")
  | JNull => Throw (read_error "null" "slice")
  | JArr l => Ret (firstn n l)
  | JStr s => Ret (firstn n (chars s))
  | JProto ArrayProto | JProto StringProto => Ret []
  | _ =>
      Throw (TypeError "countries.slice is not a function or its return value is not iterable")
  end.

(** Handlers run in the state of the process and may throw. *)
Definition M (A : Type) : Type := Server -> Server * Exn A.

Definition mret {A : Type} (a : A) : M A := fun st => (st, Ret a).

Definition mbind {A B : Type} (c : M A) (k : A -> M B) : M B :=
  fun st =>
    match c st with
    | (st', Ret a) => k a st'
    | (st', Throw e) => (st', Throw e)
    end.

Definition lift {A : Type} (c : Exn A) : M A := fun st => (st, c).

Definition try_catch {A : Type} (c : M A) (handler : JsError -> M A) : M A :=
  fun st =>
    match c st with
    | (st', Ret a) => (st', Ret a)
    | (st', Throw e) => handler e st'
    end.

Notation "x <~ c ;; k" := (mbind c (fun x => k))
  (at level 61, c at next level, right associativity).

Definition execute_write (stmt : Db -> Exn Db) : M unit :=
  fun st =>
    match stmt (db st) with
    | Ret d => (with_db st d, Ret tt)
    | Throw e => (st, Throw e)
    end.

Definition execute_read {A : Type} (stmt : Db -> Exn A) : M A :=
  fun st => (st, stmt (db st)).

(** [Math.random()] *)
Definition math_random (W : World) : M Q :=
  fun st => (with_draw st, Ret (random W (draws st))).

Definition Handler : Type := Server -> Server * Response.

(** [try { ... res.json(...) } catch (error) { ... }] around a handler body.
    The [finally] blocks release the connection; the one of the full-replace
    refresh first sends a [ROLLBACK], outside any transaction. *)
Definition respond (attempt : M Response) (on_error : JsError -> Response)
  : Handler :=
  fun st =>
    match attempt st with
    | (st', Ret r) => (st', r)
    | (st', Throw e) => (st', on_error e)
    end.

Definition internal_error (details : option string) : Response :=
  mkResponse 500 (BError "Internal server error" details).

Definition not_found : Response :=
  mkResponse 404 (BError "Country not found" None).

Definition name_required : Response :=
  mkResponse 400 (BError "Country name is required" None).

(** ** The full-replace server *)

Module FullReplace.
Section Routes.
Variable W : World.

Definition batch_cap : nat := 50.

(** Currency code, exchange rate and estimated GDP of one upstream record. *)
Definition quote (exchangeRates country : JsVal) : M (JsVal * JsVal * JsVal) :=
  currencies <~ lift (get country "currencies") ;;
  if truthy currencies then
    match object_keys currencies with
    | [] => mret (JNull, JNull, JNull)
    | currencyCode :: _ =>
        if truthy (JStr currencyCode) then
          (entry <~ lift (get exchangeRates currencyCode) ;;
           if truthy entry then
             (exchangeRate <~ lift (parseFloat W entry) ;;
              r <~ math_random W ;;
              let randomMultiplier := getRandomNumber r 1000 2000 in
              population <~ lift (get country "population") ;;
              p <~ lift (to_number W population) ;;
              mret (JStr currencyCode, JNum exchangeRate,
                    JNum (num_div (num_mul p (num_of_Z randomMultiplier))
                                  exchangeRate)))
           else mret (JStr currencyCode, JNull, JNull))
        else mret (JStr currencyCode, JNull, JNull)
    end
  else mret (JNull, JNull, JNull).

(** The record mapper: the parameter list of the [INSERT]. *)
Definition map_country (exchangeRates country : JsVal) : M Country :=
  q <~ quote exchangeRates country ;;
  let '(currencyCode, exchangeRate, estimatedGDP) := q in
  nm <~ lift (get country "name") ;;
  capital <~ lift (get country "capital") ;;
  capital0 <~ lift (if truthy capital then get capital "0" else Ret JNull) ;;
  region <~ lift (get country "region") ;;
  population <~ lift (get country "population") ;;
  flags <~ lift (get country "flags") ;;
  mret (mkCountry (js_or (get_opt nm "common") (JStr "Unknown"))
                  capital0
                  (js_or region JNull)
                  (js_or population (JNum (Fin 0)))
                  currencyCode exchangeRate estimatedGDP
                  (js_or (get_opt flags "png") JNull)).

(** One turn of the loop; the result says whether [successCount] is
    incremented.  The [catch] block formats [country.name?.common], which
    itself throws when [country] is [null] or the name cannot be turned
    into a string. *)
Definition process_country (now : Time) (exchangeRates country : JsVal)
  : M bool :=
  try_catch
    (c <~ map_country exchangeRates country ;;
     _ <~ execute_write (insert W now c) ;;
     mret true)
    (fun error =>
       nm <~ lift (get country "name") ;;
       _ <~ lift (interpolate (get_opt nm "common")) ;;
       mret false).

Fixpoint process_all (now : Time) (exchangeRates : JsVal)
         (batch : list JsVal) (successCount : nat) : M nat :=
  match batch with
  | [] => mret successCount
  | country :: rest =>
      ok <~ process_country now exchangeRates country ;;
      process_all now exchangeRates rest
                  (if ok then S successCount else successCount)
  end.

Definition refresh_error (error : JsError) : Response :=
  if is_string (err_code error) "ECONNREFUSED" || truthy (err_response error)
  then mkResponse 503 (BError "External data source unavailable"
                              (Some "Could not fetch data from external APIs"))
  else internal_error (Some (err_message error)).

(** [POST /countries/refresh] *)
Definition refresh (countriesResponse exchangeResponse : Fetch) (now : Time)
  : Handler :=
  respond
    (countriesData <~ lift countriesResponse ;;
     exchangeData <~ lift exchangeResponse ;;
     exchangeRates <~ lift (get exchangeData "rates") ;;
     len <~ lift (get countriesData "length") ;;
     _ <~ lift (interpolate len) ;;
     _ <~ execute_write (fun d => Ret (delete_all d)) ;;
     batch <~ lift (slice_prefix countriesData batch_cap) ;;
     successCount <~ process_all now exchangeRates batch 0 ;;
     mret (mkResponse 201
             (BRefreshed ("Successfully refreshed "
                          ++ string_of_nat successCount ++ " countries")
                         successCount now)))
    refresh_error.

Definition order_of (sort : JsVal) : OrderBy :=
  if is_string sort "gdp_desc" then GdpDesc
  else if is_string sort "population_desc" then PopulationDesc
  else NameAsc.

Definition build_query (region currency sort : JsVal) : Select :=
  mkSelect (if truthy region then Some region else None)
           (if truthy currency then Some currency else None)
           (order_of sort).

(** [GET /countries?region=&currency=&sort=] *)
Definition list_countries (region currency sort : JsVal) : Handler :=
  respond
    (found <~ execute_read
       (fun d => Ret (run_select (build_query region currency sort) d)) ;;
     mret (mkResponse 200 (BRows found)))
    (fun error => mkResponse 500 (BError "Failed to fetch countries"
                                         (Some (err_message error)))).

(** [GET /countries/:name] *)
Definition get_country (countryName : string) : Handler :=
  if negb (truthy (JStr countryName)) then fun st => (st, name_required)
  else
    respond
      (found <~ execute_read (select_by_name (JStr countryName)) ;;
       match found with
       | [] => mret not_found
       | first :: _ => mret (mkResponse 200 (BRow first))
       end)
      (fun _ => internal_error None).

(** [DELETE /countries/:name] *)
Definition delete_country (countryName : string) : Handler :=
  if negb (truthy (JStr countryName)) then fun st => (st, name_required)
  else
    respond
      (fun st =>
         match delete_by_name (JStr countryName) (db st) with
         | Ret (d, affectedRows) =>
             (with_db st d,
              Ret (if Nat.eqb affectedRows 0 then not_found
                   else mkResponse 204 BEmpty))
         | Throw e => (st, Throw e)
         end)
      (fun _ => internal_error None).

(** [GET /status] *)
Definition get_status : Handler :=
  respond
    (total <~ execute_read (fun d => Ret (count_all d)) ;;
     latest <~ execute_read (fun d => Ret (max_last_refreshed_at d)) ;;
     mret (mkResponse 200 (BStatus total latest)))
    (fun _ => internal_error None).

End Routes.
End FullReplace.

(** ** The upsert server *)

Module Upsert.
Section Routes.
Variable W : World.

Definition batch_cap : nat := 10.

(** Currency code, exchange rate and estimated GDP of one upstream record. *)
Definition quote (exchangeRates country : JsVal) : M (JsVal * JsVal * JsVal) :=
  currencies <~ lift (get country "currencies") ;;
  listed <~ lift (if truthy currencies
                  then (len <- get currencies "length" ;;
                        n <- to_number W len ;;
                        Ret (num_gt n (Fin 0)))
                  else Ret false) ;;
  if listed then
    (first <~ lift (get currencies "0") ;;
     currencyCode <~ lift (get first "code") ;;
     if truthy currencyCode then
       (key <~ lift (to_key W currencyCode) ;;
        entry <~ lift (get exchangeRates key) ;;
        if truthy entry then
          (let exchangeRate := entry in
           r <~ math_random W ;;
           let randomMultiplier := num_add (num_mul (Fin r) (Fin 1000)) (Fin 1000) in
           population <~ lift (get country "population") ;;
           p <~ lift (to_number W population) ;;
           x <~ lift (to_number W exchangeRate) ;;
           mret (currencyCode, exchangeRate,
                 JNum (num_div (num_mul p randomMultiplier) x)))
        else mret (currencyCode, JNull, JNull))
     else mret (currencyCode, JNull, JNull))
  else mret (JNull, JNull, JNull).

(** The record mapper: the values bound by the [UPDATE] and the [INSERT]. *)
Definition map_country (exchangeRates country : JsVal) : M Country :=
  q <~ quote exchangeRates country ;;
  let '(currencyCode, exchangeRate, estimatedGDP) := q in
  nm <~ lift (get country "name") ;;
  capital <~ lift (get country "capital") ;;
  region <~ lift (get country "region") ;;
  population <~ lift (get country "population") ;;
  flag <~ lift (get country "flag") ;;
  mret (mkCountry nm (js_or capital JNull) (js_or region JNull) population
                  currencyCode exchangeRate estimatedGDP (js_or flag JNull)).

(** Look the name up, then update or insert. *)
Definition upsert (now : Time) (c : Country) : M unit :=
  existing <~ execute_read (select_by_name (c_name c)) ;;
  match existing with
  | _ :: _ => execute_write (update W now c)
  | [] => execute_write (insert W now c)
  end.

(** One turn of the loop; the result says whether [successCount] is
    incremented ([processedCount] always is).  The [catch] block formats
    [country.name], which itself throws when [country] is [null] or the
    name cannot be turned into a string. *)
Definition process_country (now : Time) (exchangeRates country : JsVal)
  : M bool :=
  try_catch
    (c <~ map_country exchangeRates country ;;
     _ <~ upsert now c ;;
     mret true)
    (fun countryError =>
       nm <~ lift (get country "name") ;;
       _ <~ lift (interpolate nm) ;;
       mret false).

Fixpoint process_all (now : Time) (exchangeRates : JsVal)
         (batch : list JsVal) (processedCount successCount : nat)
  : M (nat * nat) :=
  match batch with
  | [] => mret (processedCount, successCount)
  | country :: rest =>
      ok <~ process_country now exchangeRates country ;;
      process_all now exchangeRates rest (S processedCount)
                  (if ok then S successCount else successCount)
  end.

Definition set_lastRefreshTime (t : Time) : M unit :=
  fun st => (mkServer (db st) (draws st) (Some t), Ret tt).

Definition refresh_error (error : JsError) : Response :=
  if truthy (err_response error)
  then mkResponse 503
         (BError "External data source unavailable"
                 (Some ("Could not fetch data from external API: "
                        ++ err_message error)))
  else internal_error (Some (err_message error)).

(** [POST /countries/refresh] *)
Definition refresh (countriesResponse exchangeResponse : Fetch) (now : Time)
  : Handler :=
  respond
    (countriesData <~ lift countriesResponse ;;
     exchangeData <~ lift exchangeResponse ;;
     exchangeRates <~ lift (get exchangeData "rates") ;;
     len <~ lift (get countriesData "length") ;;
     _ <~ lift (interpolate len) ;;
     batch <~ lift (slice_prefix countriesData batch_cap) ;;
     counts <~ process_all now exchangeRates batch 0 0 ;;
     let '(processedCount, successCount) := counts in
     _ <~ set_lastRefreshTime now ;;
     mret (mkResponse 200
             (BUpserted ("Successfully refreshed "
                         ++ string_of_nat successCount ++ " out of "
                         ++ string_of_nat processedCount ++ " countries")
                        processedCount successCount now)))
    refresh_error.

Definition order_of (sort : JsVal) : OrderBy :=
  if is_string sort "gdp_desc" then GdpDesc
  else if is_string sort "gdp_asc" then GdpAsc
  else if is_string sort "population_desc" then PopulationDesc
  else NameAsc.

Definition build_query (region currency sort : JsVal) : Select :=
  mkSelect (if truthy region then Some region else None)
           (if truthy currency then Some currency else None)
           (order_of sort).

(** [GET /countries?region=&currency=&sort=] *)
Definition list_countries (region currency sort : JsVal) : Handler :=
  respond
    (found <~ execute_read
       (fun d => Ret (run_select (build_query region currency sort) d)) ;;
     mret (mkResponse 200 (BRows found)))
    (fun _ => internal_error None).

(** [last_refreshed_at || lastRefreshTime] *)
Definition or_time (a b : option Time) : option Time :=
  match a with
  | Some t => Some t
  | None => b
  end.

(** [GET /status] *)
Definition get_status : Handler :=
  respond
    (total <~ execute_read (fun d => Ret (count_all d)) ;;
     latest <~ execute_read (fun d => Ret (max_last_refreshed_at d)) ;;
     fun st =>
       (st, Ret (mkResponse 200
                   (BStatus total (or_time latest (lastRefreshTime st))))))
    (fun _ => internal_error None).

End Routes.
End Upsert.

(** ** Fixtures of the examples *)

(** A world for the examples: [Math.random] returns [r k] at its [k]-th
    call, the engine rejects nothing, and the conversions the examples never
    reach answer [NaN]. *)
Definition quiet_world (r : nat -> Q) : World :=
  mkWorld (fun _ => NaN) (fun _ => NaN) (fun _ => "") r (fun _ => false).

(** A freshly started process over a database [d]. *)
Definition boot (d : Db) : Server := mkServer d 0 None.

Definition empty_db : Db := mkDb [] 1.


(** The upstream payloads of the scenario of the specification:
    one country of population 1000 paying in a currency whose rate is 2. *)
Definition testland : JsVal :=
  JObj [("name", JObj [("common", JStr "Testland")]);
        ("population", JNum (Fin 1000));
        ("currencies", JObj [("USD", JObj [])]);
        ("capital", JArr [JStr "Test City"])].

(** The same country in the shape the upsert server reads. *)
Definition testland_v2 : JsVal :=
  JObj [("name", JStr "Testland");
        ("population", JNum (Fin 1000));
        ("currencies", JArr [JObj [("code", JStr "USD")]]);
        ("capital", JStr "Test City")].

Definition usd_table : JsVal := JObj [("USD", JNum (Fin 2))].

(** Testland paying in a currency of code [k], in the shapes the two
    servers read. *)
Definition paying_in (k : string) : JsVal :=
  JObj [("name", JObj [("common", JStr "Testland")]);
        ("population", JNum (Fin 1000));
        ("currencies", JObj [(k, JObj [])])].

Definition paying_in_v2 (k : string) : JsVal :=
  JObj [("name", JStr "Testland");
        ("population", JNum (Fin 1000));
        ("currencies", JArr [JObj [("code", JStr k)]])].

Definition usd_rates : JsVal := JObj [("rates", usd_table)].

Definition lowest_draw : World := quiet_world (fun _ => 0%Q).



(** The sort keys as the specification lists them, each with the ordering
    it stands for; [name ASC] is the default. *)
Definition specified_sort_keys : list (string * OrderBy) :=
  [("gdp_desc", GdpDesc); ("gdp_asc", GdpAsc);
   ("population_desc", PopulationDesc)].

(** The sort keys the full-replace server compares [sort] with. *)
Definition full_replace_sort_keys : list (string * OrderBy) :=
  [("gdp_desc", GdpDesc); ("population_desc", PopulationDesc)].

(** The ordering a table of recognized keys assigns to a [sort] parameter:
    that of the first key it equals, and the default when it equals none. *)
Fixpoint order_for (keys : list (string * OrderBy)) (sort : JsVal) : OrderBy :=
  match keys with
  | [] => NameAsc
  | (k, o) :: rest => if is_string sort k then o else order_for rest sort
  end.

Definition sorted_by (o : OrderBy) (l : list Row) : Prop :=
  Sorted (fun a b => row_leb o a b = true) l.

Definition selected (by_region by_currency : JsVal) (r : Row) : bool :=
  matches (if truthy by_region then Some by_region else None) (region r)
  && matches (if truthy by_currency then Some by_currency else None)
             (currency_code r).

(** Two stored countries: the richer one comes first by name. *)
Definition two_countries : Db :=
  mkDb [mkRow 1 (JStr "Aland") JNull JNull (JNum (Fin 10)) (JStr "EUR")
              (JNum (Fin 1)) (JNum (Fin 20000)) JNull 0;
        mkRow 2 (JStr "Bland") JNull JNull (JNum (Fin 10)) (JStr "USD")
              (JNum (Fin 2)) (JNum (Fin 10000)) JNull 0]
       3.

(** The record a row holds. *)
Definition columns (r : Row) : Country :=
  mkCountry (name r) (capital r) (region r) (population r) (currency_code r)
            (exchange_rate r) (estimated_gdp r) (flag_url r).

(** The upstream records a refresh goes through: the first [cap] of the
    list the country provider answered with. *)
Definition processed_batch (countriesResponse : Fetch) (cap : nat)
  : list JsVal :=
  match countriesResponse with
  | Ret data =>
      match slice_prefix data cap with
      | Ret batch => batch
      | Throw _ => []
      end
  | Throw _ => []
  end.

(** *** A batch with a repeated name *)

Definition aland_first : JsVal :=
  JObj [("name", JStr "Aland"); ("population", JNum (Fin 1))].

Definition aland_second : JsVal :=
  JObj [("name", JStr "Aland"); ("population", JNum (Fin 2))].

(** The same record with a currency list whose first entry is [null]:
    reading [currencies[0].code] throws. *)
Definition aland_broken : JsVal :=
  JObj [("name", JStr "Aland"); ("population", JNum (Fin 2));
        ("currencies", JArr [JNull])].

(** The same record again without a population: the mapper passes
    [undefined] on and the write is refused. *)
Definition aland_unpopulated : JsVal := JObj [("name", JStr "Aland")].

Definition bland : JsVal :=
  JObj [("name", JStr "Bland"); ("population", JNum (Fin 3))].

Definition aland_second_mapped : Country :=
  mkCountry (JStr "Aland") JNull JNull (JNum (Fin 2)) JNull JNull JNull JNull.

(** The last record of a batch that carries the name [n]. *)
Definition last_named (n : string) (batch : list JsVal) : option JsVal :=
  find (fun country => is_string (get_opt country "name") n) (rev batch).

(** Last write wins, read literally: the rows named [n] hold what the
    mapper makes of the last record of the batch named [n]. *)
Definition last_entry_stored (W : World) (exchangeRates : JsVal)
           (batch : list JsVal) (n : string) (after : Server) : Prop :=
  exists (last : JsVal) (c : Country) (s s' : Server),
    last_named n batch = Some last
    /\ Upsert.map_country W exchangeRates last s = (s', Ret c)
    /\ forall r, In r (rows (db after)) -> name r = JStr n -> columns r = c.

(** The turns of the records [after] a write, run from the state it left:
    none of those named [n] succeeds. *)
Fixpoint skipped_after (W : World) (now : Time) (exchangeRates : JsVal)
         (n : string) (after : list JsVal) (st : Server) : Prop :=
  match after with
  | [] => True
  | country :: rest =>
      (is_string (get_opt country "name") n = true ->
       snd (Upsert.process_country W now exchangeRates country st)
       <> Ret true)
      /\ skipped_after W now exchangeRates n rest
           (fst (Upsert.process_country W now exchangeRates country st))
  end.

(** ** The upsert server as a process *)

Inductive Request : Type :=
| Refresh (countriesResponse exchangeResponse : Fetch) (now : Time)
| ListCountries (by_region by_currency sort : JsVal)
| GetStatus.

Definition handle (W : World) (req : Request) : Handler :=
  match req with
  | Refresh countriesResponse exchangeResponse now =>
      Upsert.refresh W countriesResponse exchangeResponse now
  | ListCountries by_region by_currency sort =>
      Upsert.list_countries by_region by_currency sort
  | GetStatus => Upsert.get_status
  end.

(** The requests of a run, served one after the other. *)
Fixpoint serve (W : World) (reqs : list Request) (st : Server)
  : Server * list Response :=
  match reqs with
  | [] => (st, [])
  | req :: rest =>
      let (st1, resp) := handle W req st in
      let (st2, resps) := serve W rest st1 in
      (st2, resp :: resps)
  end.

(** The time of a refresh that completed, read off its answer. *)
Definition completed (req : Request) (resp : Response) : option Time :=
  match req with
  | Refresh _ _ now => if status resp =? 200 then Some now else None
  | _ => None
  end.

(** The completion time of the most recent refresh of a run, if any. *)
Fixpoint last_completed (log : list (Request * Response)) : option Time :=
  match log with
  | [] => None
  | (req, resp) :: rest =>
      match last_completed rest with
      | Some t => Some t
      | None => completed req resp
      end
  end.

(** A run of the upsert server over an empty table: a status request, a
    refresh for which the country provider answers with an empty list, and a
    status request again. *)
Definition empty_refresh_run : list Request :=
  [GetStatus; Refresh (Ret (JArr [])) (Ret usd_rates) 42; GetStatus].

(** The invariant of the data model: a row without currency code or
    without exchange rate has no estimated GDP. *)
Definition gdp_guarded (r : Row) : Prop :=
  currency_code r = JNull \/ exchange_rate r = JNull -> estimated_gdp r = JNull.

(** ** The remaining routes of the full-replace server *)

Inductive Method : Type :=
| GET
| POST
| DELETE
| PUT.

Definition Method_eqb (a b : Method) : bool :=
  match a, b with
  | GET, GET | POST, POST | DELETE, DELETE | PUT, PUT => true
  | _, _ => false
  end.

(** A segment of a route path: a literal, or a parameter such as [:name],
    which stands for one segment that is not empty. *)
Inductive Segment : Type :=
| Lit (s : string)
| Param.

(** What a request carries besides method and path, and what its
    environment answers while it is served. *)
Record Inputs : Type := mkInputs {
  q_region : JsVal;
  q_currency : JsVal;
  q_sort : JsVal;
  in_countries : Fetch;
  in_rates : Fetch;
  in_now : Time;
  (** [new Date().toLocaleDateString()] *)
  in_today : string;
  (** whether [process.env] has a non-empty value under a key *)
  in_env : string -> bool
}.

(** What goes out: a JSON answer of the handlers above, the SVG picture
    with its two holes filled, the information of [GET /], or the 404 of the
    framework when no route matches. *)
Inductive Reply : Type :=
| Json (r : Response)
| Svg (total_countries : nat) (generated : string)
| Info (timestamp : Time) (environment : list (string * string))
| NoRoute.

(** [GET /countries/image] *)
Definition image (today : string) : Server -> Server * Reply :=
  fun st => (st, Svg (count_all (db st)) today).

(** [GET /] *)
Definition root (now : Time) (env : string -> bool) : Server -> Server * Reply :=
  fun st =>
    (st, Info now
           [("DB_HOST", if env "DB_HOST" then "Set" else "Missing");
            ("DB_USER", if env "DB_USER" then "Set" else "Missing");
            ("DB_NAME", if env "DB_NAME" then "Set" else "Missing");
            ("DB_PASSWORD", if env "DB_PASSWORD" then "Set" else " Missing")]).

Definition json (h : Handler) : Server -> Server * Reply :=
  fun st => let (st', r) := h st in (st', Json r).

Definition Route : Type :=
  Method * list Segment * (list string -> Inputs -> Server -> Server * Reply).

(** The routes in the order in which [app.js] registers them. *)
Definition routes (W : World) : list Route :=
  [(POST, [Lit "countries"; Lit "refresh"],
    fun _ i => json (FullReplace.refresh W (in_countries i) (in_rates i)
                                         (in_now i)));
   (GET, [Lit "countries"],
    fun _ i => json (FullReplace.list_countries (q_region i) (q_currency i)
                                                (q_sort i)));
   (GET, [Lit "countries"; Param],
    fun params _ => json (FullReplace.get_country (hd "" params)));
   (DELETE, [Lit "countries"; Param],
    fun params _ => json (FullReplace.delete_country (hd "" params)));
   (GET, [Lit "status"], fun _ _ => json FullReplace.get_status);
   (GET, [Lit "countries"; Lit "image"], fun _ i => image (in_today i));
   (GET, [], fun _ i => root (in_now i) (in_env i))].

(** The parameters a path gives to a pattern it matches.  A path is the
    list of its decoded segments. *)
Fixpoint match_path (pattern : list Segment) (path : list string)
  : option (list string) :=
  match pattern, path with
  | [], [] => Some []
  | Lit s :: pattern', x :: path' =>
      if String.eqb s x then match_path pattern' path' else None
  | Param :: pattern', x :: path' =>
      if String.eqb x "" then None
      else match match_path pattern' path' with
           | Some params => Some (x :: params)
           | None => None
           end
  | _, _ => None
  end.

(** The first registered route that matches serves the request. *)
Fixpoint dispatch (table : list Route) (m : Method) (path : list string)
         (i : Inputs) : Server -> Server * Reply :=
  match table with
  | [] => fun st => (st, NoRoute)
  | (m', pattern, handler) :: rest =>
      if Method_eqb m m' then
        match match_path pattern path with
        | Some params => handler params i
        | None => dispatch rest m path i
        end
      else dispatch rest m path i
  end.

Definition app (W : World) : Method -> list string -> Inputs
                             -> Server -> Server * Reply :=
  dispatch (routes W).

(** Inputs of a request that asks for nothing special. *)
Definition plain_inputs : Inputs :=
  mkInputs JUndefined JUndefined JUndefined (Ret (JArr [])) (Ret usd_rates)
           0 "1/1/2026" (fun _ => true).

(** Testland once more, under the same name and with another population. *)
Definition testland_again : JsVal :=
  JObj [("name", JObj [("common", JStr "Testland")]);
        ("population", JNum (Fin 5))].

(** A record whose capital list is there and empty. *)
Definition no_capital : JsVal :=
  JObj [("name", JObj [("common", JStr "Antarctica")]);
        ("capital", JArr []);
        ("population", JNum (Fin 1000))].

(** A payload whose [length] cannot be printed: the object under it has an
    own member [toString] that is no function. *)
Definition unprintable : JsVal := JObj [("toString", JNum (Fin 1))].

Definition unprintable_length : JsVal := JObj [("length", unprintable)].

(** A record with an empty capital list and a name that cannot be
    printed. *)
Definition unprintable_name : JsVal :=
  JObj [("name", JObj [("common", unprintable)]);
        ("capital", JArr []);
        ("population", JNum (Fin 1000))].
(** * Properties *)

Ltac run_monad :=
  unfold respond, try_catch, mbind, mret, lift, execute_write, execute_read,
         math_random in *.

(** ** Upstream failures *)

Section UpstreamFailures.
Variable W : World.

(** When the first fetch is rejected, neither server touches its state. *)
Lemma full_replace_countries_rejected :
  forall (e : JsError) (exchangeResponse : Fetch) (now : Time) (st : Server),
    FullReplace.refresh W (Throw e) exchangeResponse now st
    = (st, FullReplace.refresh_error e).
Proof. intros; reflexivity. Qed.

Lemma full_replace_exchange_rejected :
  forall (data : JsVal) (e : JsError) (now : Time) (st : Server),
    FullReplace.refresh W (Ret data) (Throw e) now st
    = (st, FullReplace.refresh_error e).
Proof. intros; reflexivity. Qed.

Lemma upsert_countries_rejected :
  forall (e : JsError) (exchangeResponse : Fetch) (now : Time) (st : Server),
    Upsert.refresh W (Throw e) exchangeResponse now st
    = (st, Upsert.refresh_error e).
Proof. intros; reflexivity. Qed.

Lemma upsert_exchange_rejected :
  forall (data : JsVal) (e : JsError) (now : Time) (st : Server),
    Upsert.refresh W (Ret data) (Throw e) now st
    = (st, Upsert.refresh_error e).
Proof. intros; reflexivity. Qed.

(** A rejected fetch is answered with 503 exactly when the error carries a
    [response] or, in the full-replace server only, the code
    [ECONNREFUSED]. *)
Lemma full_replace_503_iff :
  forall e : JsError,
    status (FullReplace.refresh_error e) = 503
    <-> (is_string (err_code e) "ECONNREFUSED" = true
         \/ truthy (err_response e) = true).
Proof.
  intros e; unfold FullReplace.refresh_error.
  destruct (is_string (err_code e) "ECONNREFUSED") eqn:Hc;
    destruct (truthy (err_response e)) eqn:Hr; simpl;
    intuition (try discriminate; auto).
Qed.

Lemma upsert_503_iff :
  forall e : JsError,
    status (Upsert.refresh_error e) = 503 <-> truthy (err_response e) = true.
Proof.
  intros e; unfold Upsert.refresh_error.
  destruct (truthy (err_response e)) eqn:Hr; simpl;
    intuition (try discriminate; auto).
Qed.

(** C1 (the code departs from the claim): when the country fetch, or the
    exchange-rate fetch after it, runs into the axios timeout, both servers
    leave the process state and with it the table as they were, but they
    answer 500 and not 503. *)
Theorem refresh_timeout_answers_500 :
  forall (data : JsVal) (exchangeResponse : Fetch) (now : Time) (st : Server),
    let failure :=
      internal_error (Some "timeout of 30000ms exceeded") in
    FullReplace.refresh W (Throw axios_timeout) exchangeResponse now st
    = (st, failure)
    /\ FullReplace.refresh W (Ret data) (Throw axios_timeout) now st
       = (st, failure)
    /\ Upsert.refresh W (Throw axios_timeout) exchangeResponse now st
       = (st, failure)
    /\ Upsert.refresh W (Ret data) (Throw axios_timeout) now st
       = (st, failure)
    /\ status failure = 500.
Proof. intros; repeat split. Qed.

End UpstreamFailures.

(** ** Rounding *)

Local Open Scope Q_scope.

























(** ** The estimated GDP *)



Section EstimatedGdp.
Variable W : World.




End EstimatedGdp.




(** Binary64 rounding shows: a third of a million is stored as a number
    below the exact quotient. *)
Lemma estimate_is_rounded :
  exists g : Q,
    estimate 1000 1000 3 = Fin g /\ g < 1000 * 1000 / 3.
Proof. eexists. split; [vm_compute; reflexivity | reflexivity]. Qed.


Local Close Scope Q_scope.

(** ** Records without a rate *)

Section Unmatched.
Variable W : World.

Lemma full_replace_quote_shape :
  forall (exchangeRates country : JsVal) (st st' : Server)
         (code rate gdp : JsVal),
    FullReplace.quote W exchangeRates country st = (st', Ret (code, rate, gdp)) ->
    (rate = JNull /\ gdp = JNull)
    \/ (truthy code = true
        /\ truthy (get_opt exchangeRates (key_value W code)) = true
        /\ exists x, rate = JNum x).
Proof.
  intros exchangeRates country st st' code rate gdp H.
  unfold FullReplace.quote in H. run_monad. unfold get_opt.
  destruct (get country "currencies") as [currencies|e] eqn:Hc;
    [| discriminate].
  assert (Hpop : exists v, get country "population" = Ret v).
  { destruct country; simpl in Hc; try discriminate; simpl; eauto. }
  destruct Hpop as [pop Hpop]. rewrite Hpop in *.
  destruct (truthy currencies); [| inversion H; auto].
  destruct (object_keys currencies) as [|k ks]; [inversion H; auto |].
  destruct (truthy (JStr k)) eqn:Hk; [| inversion H; auto].
  destruct (get exchangeRates k) as [entry|e] eqn:He; [| discriminate].
  destruct (truthy entry) eqn:Ht; [| inversion H; auto].
  destruct (parseFloat W entry) as [x|e]; [| discriminate].
  destruct (to_number W pop) as [p|e]; [| discriminate].
  inversion H; subst. right. simpl key_value. rewrite He. eauto.
Qed.

Lemma upsert_quote_shape :
  forall (exchangeRates country : JsVal) (st st' : Server)
         (code rate gdp : JsVal),
    Upsert.quote W exchangeRates country st = (st', Ret (code, rate, gdp)) ->
    (rate = JNull /\ gdp = JNull)
    \/ (truthy code = true
        /\ truthy (get_opt exchangeRates (key_value W code)) = true
        /\ truthy rate = true).
Proof.
  intros exchangeRates country st st' code rate gdp H.
  unfold Upsert.quote in H. run_monad. unfold get_opt.
  destruct (get country "currencies") as [currencies|e] eqn:Hc;
    [| discriminate].
  assert (Hpop : exists v, get country "population" = Ret v).
  { destruct country; simpl in Hc; try discriminate; simpl; eauto. }
  destruct Hpop as [pop Hpop]. rewrite Hpop in *.
  destruct (if truthy currencies
            then len <- get currencies "length";;
                 n <- to_number W len;; Ret (num_gt n (Fin 0))
            else Ret false) as [[|]|e];
    [| inversion H; auto | discriminate].
  destruct (get currencies "0") as [first|e]; [| discriminate].
  destruct (get first "code") as [currencyCode|e]; [| discriminate].
  destruct (truthy currencyCode) eqn:Hk; [| inversion H; auto].
  destruct (to_key W currencyCode) as [key|e] eqn:Hkey; [| discriminate].
  assert (Ekey : key = key_value W currencyCode).
  { unfold to_key in Hkey. destruct (convertible currencyCode);
      inversion Hkey; reflexivity. }
  subst key.
  destruct (get exchangeRates (key_value W currencyCode)) as [entry|e] eqn:He;
    [| discriminate].
  destruct (truthy entry) eqn:Ht; [| inversion H; auto].
  destruct (to_number W pop) as [p|e]; [| discriminate].
  destruct (to_number W entry) as [x|e]; [| discriminate].
  inversion H; subst. right. rewrite He. auto.
Qed.

(** The mappers pass the three values on as they were computed. *)
Lemma full_replace_map_quote :
  forall (exchangeRates country : JsVal) (st st' : Server) (c : Country),
    FullReplace.map_country W exchangeRates country st = (st', Ret c) ->
    FullReplace.quote W exchangeRates country st
    = (st', Ret (c_currency_code c, c_exchange_rate c, c_estimated_gdp c)).
Proof.
  intros exchangeRates country st st' c H.
  unfold FullReplace.map_country in H. run_monad.
  destruct (FullReplace.quote W exchangeRates country st) as [st1 [q|e]];
    [| discriminate].
  destruct q as [[code rate] gdp].
  destruct (get country "name"); [| discriminate].
  destruct (get country "capital") as [capital|]; [| discriminate].
  destruct (if truthy capital then get capital "0" else Ret JNull);
    [| discriminate].
  destruct (get country "region"); [| discriminate].
  destruct (get country "population"); [| discriminate].
  destruct (get country "flags"); [| discriminate].
  inversion H; subst; reflexivity.
Qed.

Lemma upsert_map_quote :
  forall (exchangeRates country : JsVal) (st st' : Server) (c : Country),
    Upsert.map_country W exchangeRates country st = (st', Ret c) ->
    Upsert.quote W exchangeRates country st
    = (st', Ret (c_currency_code c, c_exchange_rate c, c_estimated_gdp c)).
Proof.
  intros exchangeRates country st st' c H.
  unfold Upsert.map_country in H. run_monad.
  destruct (Upsert.quote W exchangeRates country st) as [st1 [q|e]];
    [| discriminate].
  destruct q as [[code rate] gdp].
  destruct (get country "name"); [| discriminate].
  destruct (get country "capital"); [| discriminate].
  destruct (get country "region"); [| discriminate].
  destruct (get country "population"); [| discriminate].
  destruct (get country "flag"); [| discriminate].
  inversion H; subst; reflexivity.
Qed.

(** Either nothing was found, or the currency code is truthy and the rate
    table has a truthy entry for it. *)
Lemma mapped_is_quoted :
  forall (exchangeRates country : JsVal) (st st' : Server) (c : Country),
    FullReplace.map_country W exchangeRates country st = (st', Ret c)
    \/ Upsert.map_country W exchangeRates country st = (st', Ret c) ->
    (c_exchange_rate c = JNull /\ c_estimated_gdp c = JNull)
    \/ (truthy (c_currency_code c) = true
        /\ truthy (get_opt exchangeRates (key_value W (c_currency_code c))) = true
        /\ c_exchange_rate c <> JNull).
Proof.
  intros exchangeRates country st st' c [H|H].
  - apply full_replace_map_quote, full_replace_quote_shape in H.
    destruct H as [H | [Hc [He [x Hx]]]]; [left; exact H |].
    right. rewrite Hx. repeat split; try assumption. discriminate.
  - apply upsert_map_quote, upsert_quote_shape in H.
    destruct H as [H | [Hc [He Hr]]]; [left; exact H |].
    right. repeat split; try assumption.
    intros E; rewrite E in Hr; discriminate.
Qed.

(** What holds of the invariant: a record mapped by either server whose
    currency code is null, or for which the lookup in the exchange-rate
    table of this refresh finds nothing, carries a null exchange rate and a
    null estimated GDP; and the estimated GDP is null whenever the currency
    code or the exchange rate is. *)
Theorem unmatched_currency_has_no_gdp :
  forall (exchangeRates country : JsVal) (st st' : Server) (c : Country),
    FullReplace.map_country W exchangeRates country st = (st', Ret c)
    \/ Upsert.map_country W exchangeRates country st = (st', Ret c) ->
    (c_currency_code c = JNull
     \/ get_opt exchangeRates (key_value W (c_currency_code c)) = JUndefined ->
     c_exchange_rate c = JNull /\ c_estimated_gdp c = JNull)
    /\ (c_currency_code c = JNull \/ c_exchange_rate c = JNull ->
        c_estimated_gdp c = JNull).
Proof.
  intros exchangeRates country st st' c H.
  destruct (mapped_is_quoted _ _ _ _ _ H) as [[Hr Hg] | [Hc [He Hr]]].
  - split; intros _; auto.
  - split.
    + intros [E|E].
      * rewrite E in Hc; discriminate.
      * rewrite E in He; discriminate.
    + intros [E|E].
      * rewrite E in Hc; discriminate.
      * contradiction.
Qed.

End Unmatched.

(** *** Codes that name an inherited member *)

Lemma has_member :
  forall (k : string) (keys : list string), In k keys -> has k keys = true.
Proof.
  intros k keys H. unfold has. apply existsb_exists.
  exists k. split; [exact H | apply String.eqb_refl].
Qed.

(** A table without an entry for [k] answers [table[k]] all the same when
    [k] names a function of [Object.prototype]. *)
Lemma inherited_entry :
  forall (table : list (string * JsVal)) (k : string),
    In k object_prototype ->
    lookup k table = None ->
    get (JObj table) k = Ret (JFun ObjectProto k).
Proof.
  intros table k Hin Hnone. unfold get. rewrite Hnone.
  unfold own_or, inherited, methods. rewrite (has_member _ _ Hin).
  reflexivity.
Qed.

Lemma member_name_truthy :
  forall k : string, In k object_prototype -> truthy (JStr k) = true.
Proof.
  intros k Hin. simpl in Hin.
  repeat (destruct Hin as [<- | Hin]; [reflexivity |]). contradiction.
Qed.

Lemma truthy_builtin : forall (p : Proto) (k : string), truthy (JFun p k) = true.
Proof. reflexivity. Qed.

Lemma num_div_NaN : forall a : num, num_div a NaN = NaN.
Proof. intros [| s | q]; reflexivity. Qed.

(** C3 (the code departs from the claim): a rate table that has no entry
    for a currency code still answers the lookup
    [exchangeRates[currencyCode]] when the code is the name of a member
    every object inherits, such as [constructor] or [toString].  For a
    record paying in such a currency the full-replace mapper binds [NaN] as
    exchange rate and as estimated GDP; the upsert mapper binds the
    inherited function as exchange rate and [NaN] as estimated GDP, [mysql2]
    refuses the function, and the record is skipped.  Neither stores the
    two nulls of the claim. *)
Theorem inherited_member_taken_for_a_rate :
  forall (W : World) (table : list (string * JsVal)) (k : string)
         (now : Time) (st : Server),
    In k object_prototype ->
    lookup k table = None ->
    FullReplace.map_country W (JObj table) (paying_in k) st
    = (with_draw st,
       Ret (mkCountry (JStr "Testland") JNull JNull (JNum (Fin 1000))
                      (JStr k) (JNum NaN) (JNum NaN) JNull))
    /\ Upsert.map_country W (JObj table) (paying_in_v2 k) st
       = (with_draw st,
          Ret (mkCountry (JStr "Testland") JNull JNull (JNum (Fin 1000))
                         (JStr k) (JFun ObjectProto k) (JNum NaN) JNull))
    /\ Upsert.process_country W now (JObj table) (paying_in_v2 k) st
       = (with_draw st, Ret false).
Proof.
  intros W table k now st Hin Hnone.
  pose proof (inherited_entry table k Hin Hnone) as Hentry.
  pose proof (member_name_truthy k Hin) as Hk.
  assert (Hfull :
            FullReplace.map_country W (JObj table) (paying_in k) st
            = (with_draw st,
               Ret (mkCountry (JStr "Testland") JNull JNull (JNum (Fin 1000))
                              (JStr k) (JNum NaN) (JNum NaN) JNull))).
  { unfold FullReplace.map_country, FullReplace.quote. run_monad.
    change (get (paying_in k) "currencies") with (Ret (JObj [(k, JObj [])])).
    cbv beta iota.
    change (truthy (JObj [(k, JObj [])])) with true.
    change (object_keys (JObj [(k, JObj [])])) with [k].
    cbv beta iota. rewrite Hk, Hentry. rewrite truthy_builtin.
    change (parseFloat W (JFun ObjectProto k)) with (Ret NaN).
    change (get (paying_in k) "population") with (Ret (JNum (Fin 1000))).
    cbv beta iota.
    change (to_number W (JNum (Fin 1000))) with (Ret (Fin 1000)).
    cbv beta iota. rewrite num_div_NaN. reflexivity. }
  assert (Hup :
            Upsert.map_country W (JObj table) (paying_in_v2 k) st
            = (with_draw st,
               Ret (mkCountry (JStr "Testland") JNull JNull (JNum (Fin 1000))
                              (JStr k) (JFun ObjectProto k) (JNum NaN)
                              JNull))).
  { unfold Upsert.map_country, Upsert.quote. run_monad.
    change (get (paying_in_v2 k) "currencies")
      with (Ret (JArr [JObj [("code", JStr k)]])).
    cbv beta iota.
    change (truthy (JArr [JObj [("code", JStr k)]])) with true.
    cbv beta iota.
    change (get (JArr [JObj [("code", JStr k)]]) "length")
      with (Ret (JNum (Fin 1))).
    change (get (JArr [JObj [("code", JStr k)]]) "0")
      with (Ret (JObj [("code", JStr k)])).
    cbv beta iota delta [bind].
    change (to_number W (JNum (Fin 1))) with (Ret (Fin 1)).
    cbv beta iota.
    change (num_gt (Fin 1) (Fin 0)) with true.
    cbv beta iota.
    change (get (JObj [("code", JStr k)]) "code") with (Ret (JStr k)).
    cbv beta iota. rewrite Hk.
    change (to_key W (JStr k)) with (Ret k).
    cbv beta iota. rewrite Hentry, truthy_builtin.
    change (get (paying_in_v2 k) "population") with (Ret (JNum (Fin 1000))).
    cbv beta iota.
    change (to_number W (JNum (Fin 1000))) with (Ret (Fin 1000)).
    change (to_number W (JFun ObjectProto k)) with (Ret NaN).
    cbv beta iota. rewrite num_div_NaN. reflexivity. }
  split; [exact Hfull |]. split; [exact Hup |].
  unfold Upsert.process_country, try_catch, mbind at 1. rewrite Hup.
  unfold Upsert.upsert, mbind, execute_read, select_by_name, c_name.
  cbv beta iota delta [refused is_undefined is_function].
  destruct (filter (named (JStr "Testland")) (rows (db (with_draw st))));
    reflexivity.
Qed.

Lemma inherited_member_taken_for_a_rate_witness :
  FullReplace.map_country lowest_draw usd_table (paying_in "constructor")
                          (boot empty_db)
  = (mkServer empty_db 1 None,
     Ret (mkCountry (JStr "Testland") JNull JNull (JNum (Fin 1000))
                    (JStr "constructor") (JNum NaN) (JNum NaN) JNull))
  /\ Upsert.map_country lowest_draw usd_table (paying_in_v2 "constructor")
                        (boot empty_db)
     = (mkServer empty_db 1 None,
        Ret (mkCountry (JStr "Testland") JNull JNull (JNum (Fin 1000))
                       (JStr "constructor")
                       (JFun ObjectProto "constructor") (JNum NaN) JNull))
  /\ Upsert.process_country lowest_draw 7 usd_table
                            (paying_in_v2 "constructor") (boot empty_db)
     = (mkServer empty_db 1 None, Ret false).
Proof.
  apply (inherited_member_taken_for_a_rate lowest_draw [("USD", JNum (Fin 2))]
           "constructor" 7 (boot empty_db)).
  - left. reflexivity.
  - reflexivity.
Defined.

Lemma unmatched_currency_has_no_gdp_witness :
  exists c,
    FullReplace.map_country lowest_draw (JObj []) testland (boot empty_db)
    = (boot empty_db, Ret c)
    /\ c_currency_code c = JStr "USD"
    /\ c_exchange_rate c = JNull /\ c_estimated_gdp c = JNull.
Proof.
  eexists. split; [reflexivity |]. split; [reflexivity |].
  destruct (unmatched_currency_has_no_gdp lowest_draw (JObj []) testland
              (boot empty_db) (boot empty_db) _ (or_introl eq_refl))
    as [Hnone _].
  apply Hnone. right. reflexivity.
Defined.

(** A refresh over one such record, the engine rejecting nothing: the
    full-replace server stores the two [NaN], the upsert server stores no
    row and counts a failure. *)
Lemma constructor_currency_refreshes :
  map (fun r => (currency_code r, exchange_rate r, estimated_gdp r))
      (rows (db (fst (FullReplace.refresh lowest_draw
                        (Ret (JArr [paying_in "constructor"]))
                        (Ret usd_rates) 7 (boot empty_db)))))
  = [(JStr "constructor", JNum NaN, JNum NaN)]
  /\ Upsert.refresh lowest_draw (Ret (JArr [paying_in_v2 "constructor"]))
                    (Ret usd_rates) 7 (boot empty_db)
     = (mkServer empty_db 1 (Some 7),
        mkResponse 200
          (BUpserted "Successfully refreshed 0 out of 1 countries" 1 0 7)).
Proof. split; vm_compute; reflexivity. Qed.

(** ** The counters of a refresh *)

Lemma slice_prefix_length :
  forall (countries : JsVal) (n : nat) (batch : list JsVal),
    slice_prefix countries n = Ret batch -> (List.length batch <= n)%nat.
Proof.
  intros countries n batch H.
  destruct countries as [| | | | | | | |[]]; simpl in H; try discriminate;
    inversion H; subst; try (rewrite length_firstn; apply Nat.le_min_l);
    apply Nat.le_0_l.
Qed.

Section Counters.
Variable W : World.

Lemma full_replace_error_status :
  forall e : JsError, status (FullReplace.refresh_error e) <> 201.
Proof.
  intros e; unfold FullReplace.refresh_error.
  destruct (_ || _); simpl; discriminate.
Qed.

Lemma upsert_error_status :
  forall e : JsError, status (Upsert.refresh_error e) <> 200.
Proof.
  intros e; unfold Upsert.refresh_error.
  destruct (truthy _); simpl; discriminate.
Qed.

(** The full-replace loop adds at most one to [successCount] per record. *)
Lemma full_replace_count :
  forall (now : Time) (exchangeRates : JsVal) (batch : list JsVal)
         (successCount n : nat) (st st' : Server),
    FullReplace.process_all W now exchangeRates batch successCount st
    = (st', Ret n) ->
    (successCount <= n <= successCount + List.length batch)%nat.
Proof.
  intros now exchangeRates batch.
  induction batch as [|country rest IH]; intros successCount n st st' H.
  - inversion H; subst; simpl; lia.
  - simpl in H. unfold mbind at 1 in H.
    destruct (FullReplace.process_country W now exchangeRates country st)
      as [st1 [ok|e]]; [| discriminate].
    apply IH in H. simpl. destruct ok; lia.
Qed.

(** The upsert loop adds one to [processedCount] per record and at most
    one to [successCount]. *)
Lemma upsert_count :
  forall (now : Time) (exchangeRates : JsVal) (batch : list JsVal)
         (processedCount successCount p s : nat) (st st' : Server),
    Upsert.process_all W now exchangeRates batch processedCount successCount st
    = (st', Ret (p, s)) ->
    p = (processedCount + List.length batch)%nat
    /\ (successCount <= s <= successCount + List.length batch)%nat.
Proof.
  intros now exchangeRates batch.
  induction batch as [|country rest IH];
    intros processedCount successCount p s st st' H.
  - inversion H; subst; simpl; lia.
  - simpl in H. unfold mbind at 1 in H.
    destruct (Upsert.process_country W now exchangeRates country st)
      as [st1 [ok|e]]; [| discriminate].
    apply IH in H. simpl. destruct ok; lia.
Qed.

(** C4: a refresh of the upsert server that completes (status 200) reports
    [successful <= total_processed <= 10]; one of the full-replace server
    (status 201) reports a single count, the successful inserts, of at most
    50. *)
Theorem refresh_counts_bounded :
  forall (countriesResponse exchangeResponse : Fetch) (now : Time)
         (st : Server),
    (status (snd (Upsert.refresh W countriesResponse exchangeResponse now st))
     = 200 ->
     exists msg total_processed successful t,
       body (snd (Upsert.refresh W countriesResponse exchangeResponse now st))
       = BUpserted msg total_processed successful t
       /\ (successful <= total_processed)%nat
       /\ (total_processed <= Upsert.batch_cap)%nat)
    /\ (status (snd (FullReplace.refresh W countriesResponse exchangeResponse
                                         now st)) = 201 ->
        exists msg total_countries t,
          body (snd (FullReplace.refresh W countriesResponse exchangeResponse
                                         now st))
          = BRefreshed msg total_countries t
          /\ (total_countries <= FullReplace.batch_cap)%nat).
Proof.
  intros countriesResponse exchangeResponse now st. split.
  - unfold Upsert.refresh. run_monad.
    destruct countriesResponse as [countriesData|e];
      [| intros H; apply upsert_error_status in H; contradiction].
    destruct exchangeResponse as [exchangeData|e];
      [| intros H; apply upsert_error_status in H; contradiction].
    destruct (get exchangeData "rates") as [exchangeRates|e];
      [| intros H; apply upsert_error_status in H; contradiction].
    destruct (get countriesData "length") as [len|e];
      [| intros H; apply upsert_error_status in H; contradiction].
    destruct (interpolate len) as [[]|e];
      [| intros H; apply upsert_error_status in H; contradiction].
    destruct (slice_prefix countriesData Upsert.batch_cap) as [batch|e] eqn:Hb;
      [| intros H; apply upsert_error_status in H; contradiction].
    destruct (Upsert.process_all W now exchangeRates batch 0 0 st)
      as [st1 [[p s]|e]] eqn:Hloop;
      [| intros H; apply upsert_error_status in H; contradiction].
    intros _. simpl.
    apply upsert_count in Hloop. apply slice_prefix_length in Hb.
    do 4 eexists. split; [reflexivity |]. lia.
  - unfold FullReplace.refresh. run_monad.
    destruct countriesResponse as [countriesData|e];
      [| intros H; apply full_replace_error_status in H; contradiction].
    destruct exchangeResponse as [exchangeData|e];
      [| intros H; apply full_replace_error_status in H; contradiction].
    destruct (get exchangeData "rates") as [exchangeRates|e];
      [| intros H; apply full_replace_error_status in H; contradiction].
    destruct (get countriesData "length") as [len|e];
      [| intros H; apply full_replace_error_status in H; contradiction].
    destruct (interpolate len) as [[]|e];
      [| intros H; apply full_replace_error_status in H; contradiction].
    simpl.
    destruct (slice_prefix countriesData FullReplace.batch_cap)
      as [batch|e] eqn:Hb;
      [| intros H; apply full_replace_error_status in H; contradiction].
    destruct (FullReplace.process_all W now exchangeRates batch 0 _)
      as [st1 [n|e]] eqn:Hloop;
      [| intros H; apply full_replace_error_status in H; contradiction].
    intros _. simpl.
    apply full_replace_count in Hloop. apply slice_prefix_length in Hb.
    do 3 eexists. split; [reflexivity |]. lia.
Qed.

End Counters.

Lemma refresh_counts_bounded_witness :
  (exists msg total_processed successful t,
      body (snd (Upsert.refresh lowest_draw
                   (Ret (JArr [aland_first; aland_broken]))
                   (Ret usd_rates) 7 (boot empty_db)))
      = BUpserted msg total_processed successful t
      /\ (successful <= total_processed)%nat
      /\ (total_processed <= Upsert.batch_cap)%nat)
  /\ (exists msg total_countries t,
         body (snd (FullReplace.refresh lowest_draw (Ret (JArr [testland]))
                                        (Ret usd_rates) 7 (boot empty_db)))
         = BRefreshed msg total_countries t
         /\ (total_countries <= FullReplace.batch_cap)%nat).
Proof.
  split.
  - destruct (refresh_counts_bounded lowest_draw
                (Ret (JArr [aland_first; aland_broken])) (Ret usd_rates) 7
                (boot empty_db)) as [H _].
    apply H. reflexivity.
  - destruct (refresh_counts_bounded lowest_draw (Ret (JArr [testland]))
                (Ret usd_rates) 7 (boot empty_db)) as [_ H].
    apply H. reflexivity.
Defined.

(** ** Sorting of [GET /countries] *)

Lemma num_leb_total : forall a b : num, num_leb a b = true \/ num_leb b a = true.
Proof.
  intros [| [|] | x] [| [|] | y]; simpl; auto.
  destruct (Qle_bool x y) eqn:E; [left; reflexivity | right].
  apply Qle_bool_iff. apply Qlt_le_weak. apply Qnot_le_lt.
  intros H. apply Qle_bool_iff in H. congruence.
Qed.

Lemma sql_leb_total : forall a b : JsVal, sql_leb a b = true \/ sql_leb b a = true.
Proof.
  intros a b.
  destruct a, b; simpl; auto using num_leb_total, String.leb_total.
Qed.

Lemma row_leb_total :
  forall (o : OrderBy) (a b : Row), row_leb o a b = true \/ row_leb o b a = true.
Proof. intros [] a b; simpl; apply sql_leb_total. Qed.

Section InsertionSort.
Variable leb : Row -> Row -> bool.
Hypothesis leb_total : forall a b, leb a b = true \/ leb b a = true.

Let le (a b : Row) : Prop := leb a b = true.

Lemma place_head :
  forall (r x : Row) (l : list Row),
    HdRel le x l -> le x r -> HdRel le x (place leb r l).
Proof.
  intros r x l Hhd Hxr. destruct l as [|y rest]; simpl.
  - constructor; exact Hxr.
  - destruct (leb r y); constructor; [exact Hxr |].
    inversion Hhd; assumption.
Qed.

Lemma place_sorted :
  forall (r : Row) (l : list Row), Sorted le l -> Sorted le (place leb r l).
Proof.
  intros r l Hs. induction Hs as [|x l Hs IH Hhd]; simpl.
  - repeat constructor.
  - destruct (leb r x) eqn:E.
    + constructor; [constructor; assumption | constructor; exact E].
    + constructor; [exact IH |].
      apply place_head; [exact Hhd |].
      destruct (leb_total r x) as [H|H]; [congruence | exact H].
Qed.

Lemma sort_rows_sorted : forall l : list Row, Sorted le (sort_rows leb l).
Proof.
  induction l as [|r l IH]; simpl; [constructor | apply place_sorted, IH].
Qed.

Lemma place_In :
  forall (r x : Row) (l : list Row), In x (place leb r l) <-> x = r \/ In x l.
Proof.
  intros r x l. induction l as [|y rest IH]; simpl.
  - intuition.
  - destruct (leb r y); simpl; [intuition | rewrite IH; intuition].
Qed.

Lemma sort_rows_In :
  forall (x : Row) (l : list Row), In x (sort_rows leb l) <-> In x l.
Proof.
  intros x l. induction l as [|r l IH]; simpl; [tauto |].
  rewrite place_In, IH. intuition.
Qed.

Lemma place_length :
  forall (r : Row) (l : list Row),
    List.length (place leb r l) = S (List.length l).
Proof.
  intros r l. induction l as [|y rest IH]; simpl; [reflexivity |].
  destruct (leb r y); simpl; [reflexivity | rewrite IH; reflexivity].
Qed.

Lemma sort_rows_length :
  forall l : list Row, List.length (sort_rows leb l) = List.length l.
Proof.
  induction l as [|r l IH]; simpl; [reflexivity |].
  rewrite place_length, IH. reflexivity.
Qed.

End InsertionSort.

(** What [run_select] returns: the selected rows, each once per stored
    copy, in the order asked for. *)
Lemma run_select_spec :
  forall (by_region by_currency : JsVal) (o : OrderBy) (d : Db),
    let q := mkSelect (if truthy by_region then Some by_region else None)
                      (if truthy by_currency then Some by_currency else None)
                      o in
    sorted_by o (run_select q d)
    /\ (forall r, In r (run_select q d)
                  <-> In r (rows d) /\ selected by_region by_currency r = true)
    /\ List.length (run_select q d)
       = List.length (filter (selected by_region by_currency) (rows d)).
Proof.
  intros by_region by_currency o d q. unfold run_select, sorted_by. simpl.
  split; [apply sort_rows_sorted, row_leb_total |].
  split.
  - intros r. rewrite sort_rows_In, filter_In. reflexivity.
  - rewrite sort_rows_length. reflexivity.
Qed.

Lemma full_replace_order :
  forall sort : JsVal,
    FullReplace.order_of sort = order_for full_replace_sort_keys sort.
Proof. intros sort; reflexivity. Qed.

Lemma upsert_order :
  forall sort : JsVal,
    Upsert.order_of sort = order_for specified_sort_keys sort.
Proof. intros sort; reflexivity. Qed.

Lemma order_for_default :
  forall (keys : list (string * OrderBy)) (sort : JsVal),
    (forall k o, In (k, o) keys -> sort <> JStr k) ->
    order_for keys sort = NameAsc.
Proof.
  intros keys sort. induction keys as [|[k o] rest IH]; intros H; simpl.
  - reflexivity.
  - destruct (is_string sort k) eqn:E.
    + destruct sort; simpl in E; try discriminate.
      apply String.eqb_eq in E. subst.
      exfalso. apply (H k o); [left; reflexivity | reflexivity].
    + apply IH. intros k' o' Hin. apply (H k' o'). right; exact Hin.
Qed.

(** C5 (as amended): [GET /countries] of the upsert server orders by the
    key that [sort] names among [gdp_desc], [gdp_asc] and
    [population_desc]; the full-replace server knows [gdp_desc] and
    [population_desc] only.  A [sort] that is none of a server's keys, which
    for the full-replace server includes [gdp_asc], gives the rows by name
    ascending.  Either way the answer is 200 with the selected rows in that
    order, and the state is left as it was. *)
Theorem list_countries_order :
  forall (by_region by_currency sort : JsVal) (st : Server),
    (exists found,
        Upsert.list_countries by_region by_currency sort st
        = (st, mkResponse 200 (BRows found))
        /\ sorted_by (order_for specified_sort_keys sort) found
        /\ (forall r, In r found
                      <-> In r (rows (db st))
                          /\ selected by_region by_currency r = true))
    /\ (exists found,
           FullReplace.list_countries by_region by_currency sort st
           = (st, mkResponse 200 (BRows found))
           /\ sorted_by (order_for full_replace_sort_keys sort) found
           /\ (forall r, In r found
                         <-> In r (rows (db st))
                             /\ selected by_region by_currency r = true))
    /\ order_for full_replace_sort_keys (JStr "gdp_asc") = NameAsc
    /\ ((forall k o, In (k, o) specified_sort_keys -> sort <> JStr k) ->
        order_for specified_sort_keys sort = NameAsc
        /\ order_for full_replace_sort_keys sort = NameAsc).
Proof.
  intros by_region by_currency sort st.
  split; [| split; [| split]].
  - eexists. split; [reflexivity |].
    rewrite <- upsert_order.
    destruct (run_select_spec by_region by_currency (Upsert.order_of sort)
                              (db st)) as [Hs [Hin _]].
    split; [exact Hs | exact Hin].
  - eexists. split; [reflexivity |].
    rewrite <- full_replace_order.
    destruct (run_select_spec by_region by_currency
                              (FullReplace.order_of sort) (db st))
      as [Hs [Hin _]].
    split; [exact Hs | exact Hin].
  - reflexivity.
  - intros H. split; apply order_for_default.
    + exact H.
    + intros k o Hin. apply (H k o).
      simpl in Hin |- *. intuition.
Qed.

Lemma list_countries_order_witness :
  order_for specified_sort_keys (JStr "area_desc") = NameAsc
  /\ order_for full_replace_sort_keys (JStr "area_desc") = NameAsc.
Proof.
  destruct (list_countries_order JUndefined JUndefined (JStr "area_desc")
              (boot two_countries)) as [_ [_ [_ H]]].
  apply H. intros k o Hin.
  simpl in Hin. destruct Hin as [E | [E | [E | []]]];
    inversion E; subst; discriminate.
Defined.

(** C5 (as stated, refuted): asked for [sort=gdp_asc], the full-replace
    server orders by name; on a table whose richer country comes first by
    name its answer is not in ascending order of estimated GDP, while the
    upsert server's is. *)
Lemma full_replace_ignores_gdp_asc :
  FullReplace.order_of (JStr "gdp_asc") = NameAsc
  /\ sql_of (FullReplace.build_query JUndefined JUndefined (JStr "gdp_asc"))
     = "SELECT * FROM countries WHERE 1=1 ORDER BY name ASC"
  /\ sql_of (Upsert.build_query JUndefined JUndefined (JStr "gdp_asc"))
     = "SELECT * FROM countries WHERE 1=1 ORDER BY estimated_gdp ASC"
  /\ order_for specified_sort_keys (JStr "gdp_asc") = GdpAsc
  /\ (exists found,
         snd (FullReplace.list_countries JUndefined JUndefined (JStr "gdp_asc")
                                         (boot two_countries))
         = mkResponse 200 (BRows found)
         /\ map name found = [JStr "Aland"; JStr "Bland"]
         /\ ~ sorted_by GdpAsc found)
  /\ (exists found,
         snd (Upsert.list_countries JUndefined JUndefined (JStr "gdp_asc")
                                    (boot two_countries))
         = mkResponse 200 (BRows found)
         /\ map name found = [JStr "Bland"; JStr "Aland"]).
Proof.
  do 4 (split; [reflexivity |]). split.
  - eexists. split; [reflexivity |]. split; [reflexivity |].
    unfold sorted_by. intros H.
    inversion H as [|x l Hs Hhd]; subst.
    inversion Hhd as [|y l' Hle]; subst.
    vm_compute in Hle. discriminate.
  - eexists. split; reflexivity.
Qed.

(** ** Missing fields *)

Lemma get_defined :
  forall (v : JsVal) (k : string),
    nullish v = false -> get v k = Ret (get_opt v k).
Proof. intros v k H; destruct v; simpl in *; try discriminate; reflexivity. Qed.

Lemma truthy_not_nullish : forall v : JsVal, truthy v = true -> nullish v = false.
Proof. intros v H; destruct v; simpl in *; try discriminate; reflexivity. Qed.

Section MissingFields.
Variable W : World.

(** On a record and a rate table that are not [null], the first part of the
    full-replace mapper returns unless a conversion throws; a record
    without [currencies] gets three nulls and costs no call of
    [Math.random]. *)
Lemma full_replace_quote_returns :
  forall (exchangeRates country : JsVal) (st : Server),
    nullish country = false ->
    nullish exchangeRates = false ->
    exists st' res,
      FullReplace.quote W exchangeRates country st = (st', res)
      /\ db st' = db st
      /\ (res = Throw conversion_error
          \/ exists code rate gdp, res = Ret (code, rate, gdp))
      /\ (get_opt country "currencies" = JUndefined ->
          st' = st /\ res = Ret (JNull, JNull, JNull)).
Proof.
  intros exchangeRates country st Hc Hr.
  unfold FullReplace.quote. run_monad.
  rewrite !(get_defined country) by exact Hc.
  destruct (truthy (get_opt country "currencies")) eqn:Ht.
  - assert (Hmissing : forall (s : Server) (r : Exn (JsVal * JsVal * JsVal)),
               get_opt country "currencies" = JUndefined ->
               s = st /\ r = Ret (JNull, JNull, JNull))
      by (intros s r E; rewrite E in Ht; discriminate).
    destruct (object_keys (get_opt country "currencies")) as [|k ks].
    + do 2 eexists. split; [reflexivity |]. split; [reflexivity |].
      split; [right; eauto | auto].
    + destruct (truthy (JStr k)).
      * rewrite (get_defined exchangeRates) by exact Hr.
        destruct (truthy (get_opt exchangeRates k)).
        -- unfold parseFloat, to_number.
           destruct (convertible (get_opt exchangeRates k));
             [destruct (convertible (get_opt country "population")) |];
             do 2 eexists; (split; [reflexivity |]);
             (split; [reflexivity |]); (split; [| apply Hmissing]);
             solve [left; reflexivity | right; eauto].
        -- do 2 eexists. split; [reflexivity |]. split; [reflexivity |].
           split; [right; eauto | apply Hmissing].
      * do 2 eexists. split; [reflexivity |]. split; [reflexivity |].
        split; [right; eauto | apply Hmissing].
  - do 2 eexists. split; [reflexivity |]. split; [reflexivity |].
    split; [right; eauto | auto].
Qed.

(** Once the currency part of a record is computed, the rest of either
    mapper returns: it reads [name], [capital], [region], [population] and
    [flags] or [flag], and puts a default where one is missing. *)
Lemma full_replace_map_returns :
  forall (exchangeRates country : JsVal) (st st' : Server)
         (code rate gdp : JsVal),
    FullReplace.quote W exchangeRates country st
    = (st', Ret (code, rate, gdp)) ->
    exists capital0,
      FullReplace.map_country W exchangeRates country st
      = (st', Ret (mkCountry
                     (js_or (get_opt (get_opt country "name") "common")
                            (JStr "Unknown"))
                     capital0
                     (js_or (get_opt country "region") JNull)
                     (js_or (get_opt country "population") (JNum (Fin 0)))
                     code rate gdp
                     (js_or (get_opt (get_opt country "flags") "png") JNull)))
      /\ (get_opt country "capital" = JUndefined -> capital0 = JNull).
Proof.
  intros exchangeRates country st st' code rate gdp Hq.
  assert (Hc : nullish country = false).
  { unfold FullReplace.quote in Hq. run_monad.
    destruct country; try reflexivity; discriminate Hq. }
  unfold FullReplace.map_country. run_monad. rewrite Hq.
  rewrite !(get_defined country) by exact Hc.
  destruct (truthy (get_opt country "capital")) eqn:Ht.
  - rewrite get_defined by (apply truthy_not_nullish, Ht).
    eexists. split; [reflexivity |].
    intros E; rewrite E in Ht; discriminate.
  - eexists. split; [reflexivity | reflexivity].
Qed.

Lemma upsert_map_returns :
  forall (exchangeRates country : JsVal) (st st' : Server)
         (code rate gdp : JsVal),
    Upsert.quote W exchangeRates country st = (st', Ret (code, rate, gdp)) ->
    Upsert.map_country W exchangeRates country st
    = (st', Ret (mkCountry (get_opt country "name")
                           (js_or (get_opt country "capital") JNull)
                           (js_or (get_opt country "region") JNull)
                           (get_opt country "population")
                           code rate gdp
                           (js_or (get_opt country "flag") JNull))).
Proof.
  intros exchangeRates country st st' code rate gdp Hq.
  assert (Hc : nullish country = false).
  { unfold Upsert.quote in Hq. run_monad.
    destruct country; try reflexivity; discriminate Hq. }
  unfold Upsert.map_country. run_monad. rewrite Hq.
  rewrite !(get_defined country) by exact Hc.
  reflexivity.
Qed.

Lemma full_replace_quote_missing :
  forall (exchangeRates country : JsVal) (st : Server),
    nullish country = false ->
    get_opt country "currencies" = JUndefined ->
    FullReplace.quote W exchangeRates country st
    = (st, Ret (JNull, JNull, JNull)).
Proof.
  intros exchangeRates country st Hc Hcur.
  unfold FullReplace.quote. run_monad.
  rewrite !(get_defined country) by exact Hc.
  rewrite Hcur. reflexivity.
Qed.

Lemma upsert_quote_missing :
  forall (exchangeRates country : JsVal) (st : Server),
    nullish country = false ->
    get_opt country "currencies" = JUndefined ->
    Upsert.quote W exchangeRates country st = (st, Ret (JNull, JNull, JNull)).
Proof.
  intros exchangeRates country st Hc Hcur.
  unfold Upsert.quote. run_monad.
  rewrite !(get_defined country) by exact Hc.
  rewrite Hcur. reflexivity.
Qed.

(** C6 (as amended): neither mapper raises for a missing field.  For an
    upstream record that is not [null], whatever either mapper returns has
    null for a missing capital, region and flag and, where the record has
    no currency list, null for currency code, exchange rate and estimated
    GDP; the mapper returns whenever its currency part does, and it does
    for a record without a currency list.  The full-replace mapper puts
    ['Unknown'] for a missing name and 0 for a missing population, and (the
    rate table not being [null]) it raises only where a value of the record
    cannot be converted to a number or a string.  The upsert mapper passes
    name and population on as they are, missing or not. *)
Theorem mappers_on_missing_fields :
  forall (exchangeRates country : JsVal) (st : Server),
    nullish country = false ->
    ((forall st' c,
         FullReplace.map_country W exchangeRates country st = (st', Ret c) ->
         (get_opt country "name" = JUndefined -> c_name c = JStr "Unknown")
         /\ (get_opt country "population" = JUndefined ->
             c_population c = JNum (Fin 0))
         /\ (get_opt country "currencies" = JUndefined ->
             c_currency_code c = JNull /\ c_exchange_rate c = JNull
             /\ c_estimated_gdp c = JNull)
         /\ (get_opt country "capital" = JUndefined -> c_capital c = JNull)
         /\ (get_opt country "region" = JUndefined -> c_region c = JNull)
         /\ (get_opt country "flags" = JUndefined -> c_flag_url c = JNull))
     /\ (forall st' q,
            FullReplace.quote W exchangeRates country st = (st', Ret q) ->
            exists c,
              FullReplace.map_country W exchangeRates country st
              = (st', Ret c))
     /\ (get_opt country "currencies" = JUndefined ->
         exists c,
           FullReplace.map_country W exchangeRates country st = (st, Ret c))
     /\ (nullish exchangeRates = false ->
         exists st' res,
           FullReplace.map_country W exchangeRates country st = (st', res)
           /\ (res = Throw conversion_error \/ exists c, res = Ret c)))
    /\ ((forall st' c,
            Upsert.map_country W exchangeRates country st = (st', Ret c) ->
            c_name c = get_opt country "name"
            /\ c_population c = get_opt country "population"
            /\ (get_opt country "currencies" = JUndefined ->
                c_currency_code c = JNull /\ c_exchange_rate c = JNull
                /\ c_estimated_gdp c = JNull)
            /\ (get_opt country "capital" = JUndefined -> c_capital c = JNull)
            /\ (get_opt country "region" = JUndefined -> c_region c = JNull)
            /\ (get_opt country "flag" = JUndefined -> c_flag_url c = JNull))
        /\ (forall st' q,
               Upsert.quote W exchangeRates country st = (st', Ret q) ->
               exists c,
                 Upsert.map_country W exchangeRates country st = (st', Ret c))
        /\ (get_opt country "currencies" = JUndefined ->
            exists c,
              Upsert.map_country W exchangeRates country st = (st, Ret c))).
Proof.
  intros exchangeRates country st Hc. split.
  - split; [| split; [| split]].
    + intros st' c H.
      pose proof (full_replace_map_quote W _ _ _ _ _ H) as Hq.
      destruct (full_replace_map_returns _ _ _ _ _ _ _ Hq)
        as [capital0 [Hm Hcap]].
      rewrite Hm in H. injection H as <-. cbn [c_name c_population
        c_currency_code c_exchange_rate c_estimated_gdp c_capital c_region
        c_flag_url].
      split; [intros E; rewrite E; reflexivity |].
      split; [intros E; rewrite E; reflexivity |].
      split.
      { intros E.
        rewrite (full_replace_quote_missing exchangeRates _ st Hc E) in Hq.
        injection Hq as _ <- <- <-. auto. }
      split; [exact Hcap |].
      split; intros E; rewrite E; reflexivity.
    + intros st' [[code rate] gdp] Hq.
      destruct (full_replace_map_returns _ _ _ _ _ _ _ Hq) as [x [Hm _]].
      eexists. exact Hm.
    + intros E.
      destruct (full_replace_map_returns _ _ _ _ _ _ _
                  (full_replace_quote_missing exchangeRates _ st Hc E))
        as [x [Hm _]].
      eexists. exact Hm.
    + intros Hr.
      destruct (full_replace_quote_returns exchangeRates country st Hc Hr)
        as [st' [res [Hq [_ [[-> | [code [rate [gdp ->]]]] _]]]]].
      * exists st', (Throw conversion_error). split; [| left; reflexivity].
        unfold FullReplace.map_country. run_monad. rewrite Hq. reflexivity.
      * destruct (full_replace_map_returns _ _ _ _ _ _ _ Hq) as [x [Hm _]].
        do 2 eexists. split; [exact Hm | right; eauto].
  - split; [| split].
    + intros st' c H.
      pose proof (upsert_map_quote W _ _ _ _ _ H) as Hq.
      pose proof (upsert_map_returns _ _ _ _ _ _ _ Hq) as Hm.
      rewrite Hm in H. injection H as <-. cbn [c_name c_population
        c_currency_code c_exchange_rate c_estimated_gdp c_capital c_region
        c_flag_url].
      split; [reflexivity |]. split; [reflexivity |].
      split.
      { intros E.
        rewrite (upsert_quote_missing exchangeRates _ st Hc E) in Hq.
        injection Hq as _ <- <- <-. auto. }
      repeat split; intros E; rewrite E; reflexivity.
    + intros st' [[code rate] gdp] Hq.
      eexists. exact (upsert_map_returns _ _ _ _ _ _ _ Hq).
    + intros E.
      eexists.
      exact (upsert_map_returns _ _ _ _ _ _ _
               (upsert_quote_missing exchangeRates _ st Hc E)).
Qed.

End MissingFields.

Lemma mappers_on_missing_fields_witness :
  FullReplace.map_country lowest_draw usd_table (JObj []) (boot empty_db)
  = (boot empty_db,
     Ret (mkCountry (JStr "Unknown") JNull JNull (JNum (Fin 0))
                    JNull JNull JNull JNull))
  /\ Upsert.map_country lowest_draw usd_table (JObj []) (boot empty_db)
     = (boot empty_db,
        Ret (mkCountry JUndefined JNull JNull JUndefined
                       JNull JNull JNull JNull)).
Proof.
  destruct (mappers_on_missing_fields lowest_draw usd_table (JObj [])
              (boot empty_db) eq_refl)
    as [[Hfull [_ [Hfull_returns _]]] [Hup [_ Hup_returns]]].
  destruct (Hfull_returns eq_refl) as [c Hc].
  destruct (Hup_returns eq_refl) as [u Hu].
  destruct (Hfull _ _ Hc) as [Hname [Hpop [Hcur [Hcap [Hreg Hflag]]]]].
  destruct (Hup _ _ Hu) as [Uname [Upop [Ucur [Ucap [Ureg Uflag]]]]].
  rewrite Hc, Hu. destruct c, u. simpl in *.
  destruct (Hcur eq_refl) as [-> [-> ->]].
  destruct (Ucur eq_refl) as [-> [-> ->]].
  rewrite (Hname eq_refl), (Hpop eq_refl), (Hcap eq_refl), (Hreg eq_refl),
    (Hflag eq_refl), Uname, Upop, (Ucap eq_refl), (Ureg eq_refl),
    (Uflag eq_refl).
  split; reflexivity.
Defined.

(** C6 (as stated, refuted): the mapper of the upsert server has no default
    for name and population.  An empty record is mapped to an undefined
    name and an undefined population; a record without population and one
    without name both fail at the database and nothing is stored for them,
    where the full-replace server stores population 0 and ['Unknown']. *)
Lemma upsert_mapper_has_no_defaults :
  (exists c,
      Upsert.map_country lowest_draw usd_table (JObj []) (boot empty_db)
      = (boot empty_db, Ret c)
      /\ c_name c = JUndefined /\ c_name c <> JStr "Unknown"
      /\ c_population c = JUndefined /\ c_population c <> JNum (Fin 0))
  /\ Upsert.refresh lowest_draw
       (Ret (JArr [JObj [("name", JStr "Nopop")];
                   JObj [("population", JNum (Fin 5))]]))
       (Ret usd_rates) 0 (boot empty_db)
     = (mkServer empty_db 0 (Some 0),
        mkResponse 200
          (BUpserted "Successfully refreshed 0 out of 2 countries" 2 0 0))
  /\ map (fun r => (name r, population r))
         (rows (db (fst (FullReplace.refresh lowest_draw
            (Ret (JArr [JObj [("name", JObj [("common", JStr "Nopop")])];
                        JObj [("population", JNum (Fin 5))]]))
            (Ret usd_rates) 0 (boot empty_db)))))
     = [(JStr "Nopop", JNum (Fin 0)); (JStr "Unknown", JNum (Fin 5))].
Proof.
  split; [| split; reflexivity].
  eexists. split; [reflexivity |].
  simpl. repeat split; discriminate.
Qed.

(** ** Lookup and deletion by name *)

Lemma sql_eq_string :
  forall (cell : JsVal) (s : string),
    sql_eq cell (JStr s) = true <-> cell = JStr s.
Proof.
  intros cell s. destruct cell; simpl; split; intros H; try discriminate.
  - apply String.eqb_eq in H. subst; reflexivity.
  - inversion H. apply String.eqb_refl.
Qed.

Lemma filter_out_then_in :
  forall (A : Type) (f : A -> bool) (l : list A),
    filter f (filter (fun x => negb (f x)) l) = [].
Proof.
  intros A f l. induction l as [|x l IH]; simpl; [reflexivity |].
  destruct (f x) eqn:E; simpl; [exact IH | rewrite E; exact IH].
Qed.

Lemma filter_none :
  forall (A : Type) (f : A -> bool) (l : list A),
    (forall x, In x l -> f x = false) -> filter f l = [].
Proof.
  intros A f l H. induction l as [|x l IH]; simpl; [reflexivity |].
  rewrite (H x) by (left; reflexivity).
  apply IH. intros y Hy. apply H. right; exact Hy.
Qed.

Lemma nonempty_is_truthy :
  forall s : string, s <> "" -> truthy (JStr s) = true.
Proof.
  intros s H. simpl. destruct (String.eqb s "") eqn:E; [| reflexivity].
  apply String.eqb_eq in E. contradiction.
Qed.

(** C7: once [DELETE /countries/:name] has answered 204, a
    [GET /countries/:name] for the same name is answered 404; so is one for
    any name no stored row carries; and an answer 200 always carries a stored
    row of that name. *)
Theorem deleted_country_is_not_found :
  forall (countryName : string) (st : Server),
    countryName <> "" ->
    (status (snd (FullReplace.delete_country countryName st)) = 204 ->
     snd (FullReplace.get_country countryName
            (fst (FullReplace.delete_country countryName st)))
     = not_found)
    /\ ((forall r, In r (rows (db st)) -> name r <> JStr countryName) ->
        FullReplace.get_country countryName st = (st, not_found))
    /\ (forall answer,
           snd (FullReplace.get_country countryName st)
           = mkResponse 200 answer ->
           exists r, answer = BRow r /\ In r (rows (db st))
                     /\ name r = JStr countryName)
    /\ status not_found = 404.
Proof.
  intros countryName st Hne.
  pose proof (nonempty_is_truthy countryName Hne) as Ht.
  split; [| split; [| split]].
  - intros _.
    unfold FullReplace.delete_country, FullReplace.get_country.
    rewrite Ht. simpl. run_monad. simpl.
    rewrite filter_out_then_in. reflexivity.
  - intros Hnone. unfold FullReplace.get_country.
    rewrite Ht. simpl. run_monad. simpl.
    rewrite filter_none; [reflexivity |].
    intros r Hr. unfold named.
    destruct (sql_eq (name r) (JStr countryName)) eqn:E; [| reflexivity].
    apply sql_eq_string in E. exfalso. exact (Hnone r Hr E).
  - intros answer. unfold FullReplace.get_country.
    rewrite Ht. simpl. run_monad. simpl.
    destruct (filter (named (JStr countryName)) (rows (db st)))
      as [|first rest] eqn:Ef; simpl; intros H.
    + discriminate.
    + inversion H; subst. exists first. split; [reflexivity |].
      assert (Hin : In first (filter (named (JStr countryName)) (rows (db st))))
        by (rewrite Ef; left; reflexivity).
      apply filter_In in Hin. destruct Hin as [Hin Hnamed].
      split; [exact Hin | apply sql_eq_string; exact Hnamed].
  - reflexivity.
Qed.

Lemma deleted_country_is_not_found_witness :
  status (snd (FullReplace.delete_country "Aland" (boot two_countries))) = 204
  /\ snd (FullReplace.get_country "Aland"
            (fst (FullReplace.delete_country "Aland" (boot two_countries))))
     = not_found
  /\ FullReplace.get_country "Cland" (boot two_countries)
     = (boot two_countries, not_found).
Proof.
  assert (Hne : forall s c, String c s <> "") by (intros s c H; discriminate H).
  destruct (deleted_country_is_not_found "Aland" (boot two_countries)
              (Hne _ _)) as [Hdel _].
  destruct (deleted_country_is_not_found "Cland" (boot two_countries)
              (Hne _ _)) as [_ [Hnone _]].
  split; [reflexivity |].
  split; [apply Hdel; reflexivity |].
  apply Hnone. intros r Hr.
  simpl in Hr. destruct Hr as [<- | [<- | []]]; discriminate.
Defined.

(** ** The upsert loop *)

Lemma sql_eq_of_string :
  forall (s : string) (param : JsVal),
    sql_eq (JStr s) param = true -> param = JStr s.
Proof.
  intros s param H. destruct param; simpl in H; try discriminate.
  apply String.eqb_eq in H. subst; reflexivity.
Qed.

Section UpsertLoop.
Variable W : World.

(** Mapping a record reads the state but only advances the draw counter. *)
Lemma upsert_quote_db :
  forall (exchangeRates country : JsVal) (st st' : Server)
         (res : Exn (JsVal * JsVal * JsVal)),
    Upsert.quote W exchangeRates country st = (st', res) ->
    db st' = db st /\ lastRefreshTime st' = lastRefreshTime st.
Proof.
  intros exchangeRates country st st' res H.
  unfold Upsert.quote in H. run_monad.
  repeat match type of H with
         | context [match ?x with _ => _ end] => destruct x
         | context [if ?b then _ else _] => destruct b
         end;
    inversion H; subst; simpl; auto.
Qed.

Lemma upsert_map_db :
  forall (exchangeRates country : JsVal) (st st' : Server) (res : Exn Country),
    Upsert.map_country W exchangeRates country st = (st', res) ->
    db st' = db st /\ lastRefreshTime st' = lastRefreshTime st.
Proof.
  intros exchangeRates country st st' res H.
  unfold Upsert.map_country in H. run_monad.
  destruct (Upsert.quote W exchangeRates country st) as [st1 q] eqn:Hq.
  apply upsert_quote_db in Hq.
  repeat match type of H with
         | context [match ?x with _ => _ end] => destruct x
         end;
    inversion H; subst; simpl; auto.
Qed.

Lemma upsert_map_name :
  forall (exchangeRates country : JsVal) (st st' : Server) (c : Country),
    Upsert.map_country W exchangeRates country st = (st', Ret c) ->
    c_name c = get_opt country "name".
Proof.
  intros exchangeRates country st st' c H.
  unfold Upsert.map_country in H. run_monad. unfold get_opt.
  destruct (Upsert.quote W exchangeRates country st) as [st1 [q|e]];
    [| discriminate].
  destruct q as [[code rate] gdp].
  destruct (get country "name"); [| discriminate].
  destruct (get country "capital"); [| discriminate].
  destruct (get country "region"); [| discriminate].
  destruct (get country "population"); [| discriminate].
  destruct (get country "flag"); [| discriminate].
  inversion H; subst; reflexivity.
Qed.

(** The two ways an upsert can succeed, and what it leaves when it fails. *)
Lemma upsert_cases :
  forall (now : Time) (c : Country) (st st' : Server) (res : Exn unit),
    Upsert.upsert W now c st = (st', res) ->
    (exists e, res = Throw e /\ st' = st)
    \/ (res = Ret tt
        /\ draws st' = draws st /\ lastRefreshTime st' = lastRefreshTime st
        /\ ((filter (named (c_name c)) (rows (db st)) <> []
             /\ rows (db st') = map (update_row now c) (rows (db st)))
            \/ (filter (named (c_name c)) (rows (db st)) = []
                /\ rows (db st')
                   = (rows (db st)
                      ++ [mkRow (next_id (db st)) (c_name c) (c_capital c)
                                (c_region c) (c_population c)
                                (c_currency_code c) (c_exchange_rate c)
                                (c_estimated_gdp c) (c_flag_url c) now])%list))).
Proof.
  intros now c st st' res H.
  unfold Upsert.upsert in H. run_monad. unfold select_by_name in H.
  destruct (refused [c_name c]).
  { inversion H; subst. left; eauto. }
  destruct (filter (named (c_name c)) (rows (db st))) as [|x found] eqn:Ef.
  - unfold insert, bind in H.
    destruct (check_params W (insert_params c)) as [[]|e];
      [| inversion H; subst; left; eauto].
    destruct (is_null (c_name c) || is_null (c_population c));
      [inversion H; subst; left; eauto |].
    destruct (existsb (named (c_name c)) (rows (db st)));
      [inversion H; subst; left; eauto |].
    inversion H; subst. right. simpl. auto 6.
  - unfold update, bind in H.
    destruct (check_params W (update_params c)) as [[]|e];
      [| inversion H; subst; left; eauto].
    destruct (is_null (c_population c));
      [inversion H; subst; left; eauto |].
    inversion H; subst. right. simpl.
    repeat split. left. split; [discriminate | reflexivity].
Qed.

(** One turn of the loop either leaves the table as it was, or maps the
    record and upserts it. *)
Lemma upsert_turn :
  forall (now : Time) (exchangeRates country : JsVal) (st st' : Server)
         (res : Exn bool),
    Upsert.process_country W now exchangeRates country st = (st', res) ->
    (db st' = db st /\ lastRefreshTime st' = lastRefreshTime st
     /\ res <> Ret true)
    \/ (exists stm c,
           Upsert.map_country W exchangeRates country st = (stm, Ret c)
           /\ Upsert.upsert W now c stm = (st', Ret tt)
           /\ res = Ret true).
Proof.
  intros now exchangeRates country st st' res H.
  unfold Upsert.process_country in H. unfold try_catch, mbind at 1 in H.
  destruct (Upsert.map_country W exchangeRates country st) as [stm [c|e]] eqn:Hm.
  - pose proof (upsert_map_db _ _ _ _ _ Hm) as [Hdb Hlast].
    unfold mbind at 1 in H.
    destruct (Upsert.upsert W now c stm) as [st2 [[]|e]] eqn:Hu.
    + unfold mret in H. inversion H; subst. right. eauto.
    + apply upsert_cases in Hu.
      destruct Hu as [[e' [_ ->]] | [Hu _]]; [| discriminate].
      left. run_monad.
      destruct (get country "name") as [nm|];
      [destruct (interpolate nm) as [[]|] |];
      inversion H; subst;
        repeat split; try assumption; discriminate.
  - pose proof (upsert_map_db _ _ _ _ _ Hm) as [Hdb Hlast].
    left. run_monad.
    destruct (get country "name") as [nm|];
      [destruct (interpolate nm) as [[]|] |];
      inversion H; subst;
      repeat split; try assumption; discriminate.
Qed.

(** *** Rows the refresh does not name *)

Lemma upsert_keeps_others :
  forall (now : Time) (c : Country) (st st' : Server) (res : Exn unit),
    Upsert.upsert W now c st = (st', res) ->
    (List.length (rows (db st)) <= List.length (rows (db st')))%nat
    /\ forall r, In r (rows (db st)) -> named (c_name c) r = false ->
                 In r (rows (db st')).
Proof.
  intros now c st st' res H. apply upsert_cases in H.
  destruct H as [[e [_ ->]] | [_ [_ [_ [[_ Hrows] | [_ Hrows]]]]]].
  - split; [lia | auto].
  - rewrite Hrows, length_map. split; [lia |].
    intros r Hin Hother. apply in_map_iff. exists r.
    split; [| exact Hin]. unfold update_row. rewrite Hother. reflexivity.
  - rewrite Hrows, length_app. split; [lia |].
    intros r Hin _. apply in_or_app. left; exact Hin.
Qed.

Lemma upsert_turn_keeps_others :
  forall (now : Time) (exchangeRates country : JsVal) (st st' : Server)
         (res : Exn bool),
    Upsert.process_country W now exchangeRates country st = (st', res) ->
    (List.length (rows (db st)) <= List.length (rows (db st')))%nat
    /\ forall r, In r (rows (db st)) ->
                 named (get_opt country "name") r = false ->
                 In r (rows (db st')).
Proof.
  intros now exchangeRates country st st' res H. apply upsert_turn in H.
  destruct H as [[Hdb _] | [stm [c [Hm [Hu _]]]]].
  - rewrite Hdb. split; [lia | auto].
  - pose proof (upsert_map_db _ _ _ _ _ Hm) as [Hdb _].
    rewrite <- (upsert_map_name _ _ _ _ _ Hm).
    rewrite <- Hdb. exact (upsert_keeps_others _ _ _ _ _ Hu).
Qed.

Lemma upsert_loop_keeps_others :
  forall (now : Time) (exchangeRates : JsVal) (batch : list JsVal)
         (processedCount successCount : nat) (st st' : Server)
         (res : Exn (nat * nat)),
    Upsert.process_all W now exchangeRates batch processedCount successCount st
    = (st', res) ->
    (List.length (rows (db st)) <= List.length (rows (db st')))%nat
    /\ forall r, In r (rows (db st)) ->
                 (forall country, In country batch ->
                                  named (get_opt country "name") r = false) ->
                 In r (rows (db st')).
Proof.
  intros now exchangeRates batch.
  induction batch as [|country rest IH];
    intros processedCount successCount st st' res H.
  - inversion H; subst. split; [lia | auto].
  - simpl in H. unfold mbind at 1 in H.
    destruct (Upsert.process_country W now exchangeRates country st)
      as [st1 [ok|e]] eqn:Hturn;
      apply upsert_turn_keeps_others in Hturn; destruct Hturn as [Hlen Hkeep].
    + apply IH in H. destruct H as [Hlen' Hkeep'].
      split; [lia |].
      intros r Hin Hother. apply Hkeep'.
      * apply Hkeep; [exact Hin | apply Hother; left; reflexivity].
      * intros d Hd. apply Hother. right; exact Hd.
    + inversion H; subst. split; [exact Hlen |].
      intros r Hin Hother.
      apply Hkeep; [exact Hin | apply Hother; left; reflexivity].
Qed.

(** C9: a refresh of the upsert server deletes nothing.  The table has at
    least as many rows afterwards, and every row that none of the processed
    records names is still there, unchanged; this holds whether the refresh
    completes or fails. *)
Theorem upsert_refresh_keeps_rows :
  forall (countriesResponse exchangeResponse : Fetch) (now : Time)
         (st : Server),
    (List.length (rows (db st))
     <= List.length
          (rows (db (fst (Upsert.refresh W countriesResponse
                                         exchangeResponse now st)))))%nat
    /\ forall r : Row,
        In r (rows (db st)) ->
        (forall country,
            In country (processed_batch countriesResponse Upsert.batch_cap) ->
            named (get_opt country "name") r = false) ->
        In r (rows (db (fst (Upsert.refresh W countriesResponse
                                            exchangeResponse now st)))).
Proof.
  intros countriesResponse exchangeResponse now st.
  unfold Upsert.refresh, processed_batch in *. run_monad.
  destruct countriesResponse as [countriesData|e]; [| simpl; auto].
  destruct exchangeResponse as [exchangeData|e]; [| simpl; auto].
  destruct (get exchangeData "rates") as [exchangeRates|e]; [| simpl; auto].
  destruct (get countriesData "length") as [len|e]; [| simpl; auto].
  destruct (interpolate len) as [[]|e]; [| simpl; auto].
  destruct (slice_prefix countriesData Upsert.batch_cap) as [batch|e];
    [| simpl; auto].
  destruct (Upsert.process_all W now exchangeRates batch 0 0 st)
    as [st1 res] eqn:Hloop.
  apply upsert_loop_keeps_others in Hloop. destruct Hloop as [Hlen Hkeep].
  destruct res as [[p s]|e]; simpl; split; auto.
Qed.

(** *** Rows of one name *)

Lemma update_row_name :
  forall (now : Time) (c : Country) (r : Row),
    name (update_row now c r) = name r.
Proof.
  intros now c r. unfold update_row. destruct (named (c_name c) r); reflexivity.
Qed.

Lemma filter_map_fixed :
  forall (f : Row -> bool) (g : Row -> Row) (l : list Row),
    (forall r, f (g r) = f r) ->
    (forall r, f r = true -> g r = r) ->
    filter f (map g l) = filter f l.
Proof.
  intros f g l Hsame Hfix. induction l as [|r l IH]; simpl; [reflexivity |].
  rewrite Hsame. destruct (f r) eqn:E; [| exact IH].
  rewrite (Hfix r E), IH. reflexivity.
Qed.

(** An upsert under another name neither changes nor adds a row named [n]. *)
Lemma upsert_keeps_named :
  forall (now : Time) (c : Country) (st st' : Server) (res : Exn unit)
         (n : string),
    Upsert.upsert W now c st = (st', res) ->
    c_name c <> JStr n ->
    filter (named (JStr n)) (rows (db st'))
    = filter (named (JStr n)) (rows (db st)).
Proof.
  intros now c st st' res n H Hname. apply upsert_cases in H.
  destruct H as [[e [_ ->]] | [_ [_ [_ [[_ Hrows] | [_ Hrows]]]]]].
  - reflexivity.
  - rewrite Hrows. apply filter_map_fixed.
    + intros r. unfold named. rewrite update_row_name. reflexivity.
    + intros r Hr. unfold update_row.
      destruct (named (c_name c) r) eqn:E; [| reflexivity].
      unfold named in Hr, E. apply sql_eq_string in Hr. rewrite Hr in E.
      apply sql_eq_of_string in E. contradiction.
  - rewrite Hrows, filter_app. simpl. unfold named at 2. simpl.
    destruct (sql_eq (c_name c) (JStr n)) eqn:E.
    + apply sql_eq_string in E. contradiction.
    + apply app_nil_r.
Qed.

Lemma is_string_false :
  forall (v : JsVal) (n : string), is_string v n = false -> v <> JStr n.
Proof.
  intros v n H E. subst v. simpl in H. rewrite String.eqb_refl in H.
  discriminate.
Qed.

(** Turns that fail and turns under other names leave the rows named [n]
    as they are. *)
Lemma upsert_loop_keeps_named :
  forall (now : Time) (exchangeRates : JsVal) (batch : list JsVal)
         (processedCount successCount : nat) (st st' : Server)
         (res : Exn (nat * nat)) (n : string),
    Upsert.process_all W now exchangeRates batch processedCount successCount st
    = (st', res) ->
    skipped_after W now exchangeRates n batch st ->
    filter (named (JStr n)) (rows (db st'))
    = filter (named (JStr n)) (rows (db st)).
Proof.
  intros now exchangeRates batch.
  induction batch as [|country rest IH];
    intros processedCount successCount st st' res n H Hskip.
  - inversion H; subst. reflexivity.
  - simpl in H, Hskip. unfold mbind at 1 in H.
    destruct Hskip as [Hfail Hrest].
    destruct (Upsert.process_country W now exchangeRates country st)
      as [st1 r] eqn:Ht.
    simpl in Hfail, Hrest.
    assert (Hturn : filter (named (JStr n)) (rows (db st1))
                    = filter (named (JStr n)) (rows (db st))).
    { apply upsert_turn in Ht.
      destruct Ht as [[Hdb _] | [stm [c [Hm [Hu Hr]]]]].
      - rewrite Hdb. reflexivity.
      - pose proof (upsert_map_db _ _ _ _ _ Hm) as [Hdb _].
        rewrite <- Hdb. apply (upsert_keeps_named _ _ _ _ _ _ Hu).
        rewrite (upsert_map_name _ _ _ _ _ Hm).
        apply is_string_false.
        destruct (is_string (get_opt country "name") n); [| reflexivity].
        exfalso. apply Hfail; [reflexivity | exact Hr]. }
    destruct r as [ok|e].
    + apply IH with (n := n) in H; [| exact Hrest].
      rewrite H. exact Hturn.
    + inversion H; subst. exact Hturn.
Qed.

(** Records under other names count as skipped. *)
Lemma other_names_are_skipped :
  forall (now : Time) (exchangeRates : JsVal) (n : string)
         (batch : list JsVal) (st : Server),
    (forall country, In country batch -> get_opt country "name" <> JStr n) ->
    skipped_after W now exchangeRates n batch st.
Proof.
  intros now exchangeRates n batch.
  induction batch as [|country rest IH]; intros st Hother; simpl.
  - exact I.
  - split.
    + intros E. exfalso. apply (Hother country); [left; reflexivity |].
      destruct (get_opt country "name"); simpl in E; try discriminate.
      apply String.eqb_eq in E. subst; reflexivity.
    + apply IH. intros d Hd. apply Hother. right; exact Hd.
Qed.

(** After a successful upsert of a record named [n], the rows named [n]
    are there and hold that record. *)
Lemma upsert_stores :
  forall (now : Time) (c : Country) (st st' : Server) (n : string),
    Upsert.upsert W now c st = (st', Ret tt) ->
    c_name c = JStr n ->
    filter (named (JStr n)) (rows (db st')) <> []
    /\ forall r, In r (filter (named (JStr n)) (rows (db st'))) ->
                 columns r = c /\ last_refreshed_at r = now.
Proof.
  intros now c st st' n H Hname. apply upsert_cases in H.
  destruct H as [[e [He _]] | [_ [_ [_ [[Hex Hrows] | [Hnone Hrows]]]]]];
    [discriminate | |]; rewrite Hname in *; rewrite Hrows.
  - split.
    + destruct (filter (named (JStr n)) (rows (db st))) as [|x found] eqn:Ef;
        [contradiction |].
      assert (Hx : In x (filter (named (JStr n)) (rows (db st))))
        by (rewrite Ef; left; reflexivity).
      apply filter_In in Hx. destruct Hx as [Hx Hnx].
      intros Hempty.
      assert (Hin : In (update_row now c x)
                       (filter (named (JStr n))
                               (map (update_row now c) (rows (db st))))).
      { apply filter_In. split; [apply in_map; exact Hx |].
        unfold named. rewrite update_row_name. exact Hnx. }
      rewrite Hempty in Hin. exact Hin.
    + intros r' Hr'. apply filter_In in Hr'. destruct Hr' as [Hr' Hnamed].
      apply in_map_iff in Hr'. destruct Hr' as [r [<- Hr]].
      unfold named in Hnamed. rewrite update_row_name in Hnamed.
      unfold update_row, named. rewrite Hname, Hnamed.
      apply sql_eq_string in Hnamed.
      destruct c; simpl in *; subst. unfold columns; simpl.
      rewrite Hnamed. auto.
  - rewrite filter_app, Hnone. simpl. unfold named. simpl.
    rewrite String.eqb_refl. split; [discriminate |].
    intros r [<- | []]. destruct c; simpl in *; subst.
    unfold columns; simpl. auto.
Qed.

Lemma upsert_loop_app :
  forall (now : Time) (exchangeRates : JsVal) (front back : list JsVal)
         (processedCount successCount : nat) (st : Server),
    Upsert.process_all W now exchangeRates (front ++ back)
                       processedCount successCount st
    = match Upsert.process_all W now exchangeRates front
                               processedCount successCount st with
      | (st1, Ret (p, s)) =>
          Upsert.process_all W now exchangeRates back p s st1
      | (st1, Throw e) => (st1, Throw e)
      end.
Proof.
  intros now exchangeRates front back.
  induction front as [|country rest IH]; intros processedCount successCount st.
  - reflexivity.
  - simpl. unfold mbind.
    destruct (Upsert.process_country W now exchangeRates country st)
      as [st1 [ok|e]]; [apply IH | reflexivity].
Qed.

(** C8 (as amended): the last successful write wins.  When the turn of a
    record named [n] succeeds, its mapping [c] and the upsert of [c] both
    returning, and every later record of the batch named [n] has its turn
    fail, then after the batch the table has a row named [n], and every such
    row holds exactly [c] and the time of this refresh. *)
Theorem last_successful_write_wins :
  forall (now : Time) (exchangeRates : JsVal) (before after : list JsVal)
         (country : JsVal) (p0 s0 p1 s1 p3 s3 : nat)
         (st st1 stm st2 st3 : Server) (c : Country) (n : string),
    Upsert.process_all W now exchangeRates before p0 s0 st
    = (st1, Ret (p1, s1)) ->
    Upsert.map_country W exchangeRates country st1 = (stm, Ret c) ->
    Upsert.upsert W now c stm = (st2, Ret tt) ->
    c_name c = JStr n ->
    skipped_after W now exchangeRates n after st2 ->
    Upsert.process_all W now exchangeRates after (S p1) (S s1) st2
    = (st3, Ret (p3, s3)) ->
    Upsert.process_all W now exchangeRates (before ++ country :: after) p0 s0 st
    = (st3, Ret (p3, s3))
    /\ (exists r, In r (rows (db st3)) /\ name r = JStr n)
    /\ (forall r, In r (rows (db st3)) -> name r = JStr n ->
                  columns r = c /\ last_refreshed_at r = now).
Proof.
  intros now exchangeRates before after country p0 s0 p1 s1 p3 s3
         st st1 stm st2 st3 c n Hbefore Hmap Hup Hname Hlater Hafter.
  assert (Hturn : Upsert.process_country W now exchangeRates country st1
                  = (st2, Ret true)).
  { unfold Upsert.process_country, try_catch, mbind.
    rewrite Hmap, Hup. reflexivity. }
  pose proof (upsert_loop_keeps_named _ _ _ _ _ _ _ _ n Hafter Hlater) as Hsame.
  destruct (upsert_stores _ _ _ _ _ Hup Hname) as [Hsome Hall].
  rewrite <- Hsame in Hsome, Hall.
  split; [| split].
  - rewrite upsert_loop_app, Hbefore. simpl. unfold mbind at 1.
    rewrite Hturn. exact Hafter.
  - destruct (filter (named (JStr n)) (rows (db st3))) as [|r found] eqn:Ef;
      [contradiction |].
    assert (Hr : In r (filter (named (JStr n)) (rows (db st3))))
      by (rewrite Ef; left; reflexivity).
    apply filter_In in Hr. destruct Hr as [Hr Hnamed].
    exists r. split; [exact Hr | apply sql_eq_string; exact Hnamed].
  - intros r Hr Hnamed. apply Hall. apply filter_In.
    split; [exact Hr | apply sql_eq_string; exact Hnamed].
Qed.

End UpsertLoop.

Lemma last_successful_write_wins_witness :
  snd (Upsert.refresh lowest_draw
         (Ret (JArr [aland_first; aland_second; aland_broken; bland]))
         (Ret usd_rates) 7 (boot empty_db))
  = mkResponse 200
      (BUpserted "Successfully refreshed 3 out of 4 countries" 4 3 7)
  /\ (exists r,
         In r (rows (db (fst (Upsert.refresh lowest_draw
                  (Ret (JArr [aland_first; aland_second; aland_broken; bland]))
                  (Ret usd_rates) 7 (boot empty_db)))))
         /\ name r = JStr "Aland")
  /\ (forall r,
         In r (rows (db (fst (Upsert.refresh lowest_draw
                  (Ret (JArr [aland_first; aland_second; aland_broken; bland]))
                  (Ret usd_rates) 7 (boot empty_db))))) ->
         name r = JStr "Aland" ->
         columns r = aland_second_mapped /\ last_refreshed_at r = 7).
Proof.
  assert (Hlater : skipped_after lowest_draw 7 usd_table "Aland"
                     [aland_broken; bland]
                     (mkServer (mkDb [mkRow 1 (JStr "Aland") JNull JNull
                                            (JNum (Fin 2)) JNull JNull JNull
                                            JNull 7] 2) 0 None)).
  { simpl. repeat split; intros; congruence. }
  epose proof (last_successful_write_wins lowest_draw 7 usd_table
                 [aland_first] [aland_broken; bland] aland_second 0 0 _ _ _ _
                 (boot empty_db) _ _ _ _ aland_second_mapped "Aland"
                 eq_refl eq_refl eq_refl eq_refl Hlater eq_refl)
    as [_ [Hsome Hall]].
  split; [reflexivity |].
  split; [exact Hsome | exact Hall].
Defined.

(** C8 (as stated, refuted): a second record named Aland whose turn fails
    does not win.  When it cannot be mapped (its currency list starts with
    [null]) or cannot be written (it has no population), the turn is skipped
    and the row keeps the population 1 of the first record. *)
Lemma failed_duplicate_keeps_earlier_row :
  last_named "Aland" [aland_first; aland_broken] = Some aland_broken
  /\ get_opt aland_broken "population" = JNum (Fin 2)
  /\ snd (Upsert.refresh lowest_draw (Ret (JArr [aland_first; aland_broken]))
                         (Ret usd_rates) 7 (boot empty_db))
     = mkResponse 200
         (BUpserted "Successfully refreshed 1 out of 2 countries" 2 1 7)
  /\ map (fun r => (name r, population r))
         (rows (db (fst (Upsert.refresh lowest_draw
                           (Ret (JArr [aland_first; aland_broken]))
                           (Ret usd_rates) 7 (boot empty_db)))))
     = [(JStr "Aland", JNum (Fin 1))]
  /\ ~ last_entry_stored lowest_draw usd_table [aland_first; aland_broken]
         "Aland"
         (fst (Upsert.refresh lowest_draw
                 (Ret (JArr [aland_first; aland_broken]))
                 (Ret usd_rates) 7 (boot empty_db)))
  /\ map (fun r => (name r, population r))
         (rows (db (fst (Upsert.refresh lowest_draw
                           (Ret (JArr [aland_first; aland_unpopulated]))
                           (Ret usd_rates) 7 (boot empty_db)))))
     = [(JStr "Aland", JNum (Fin 1))]
  /\ ~ last_entry_stored lowest_draw usd_table
         [aland_first; aland_unpopulated] "Aland"
         (fst (Upsert.refresh lowest_draw
                 (Ret (JArr [aland_first; aland_unpopulated]))
                 (Ret usd_rates) 7 (boot empty_db))).
Proof.
  do 4 (split; [reflexivity |]).
  split; [| split; [reflexivity |]].
  - intros [last [c [s [s' [Hlast [Hmap _]]]]]].
    vm_compute in Hlast. inversion Hlast; subst last.
    vm_compute in Hmap. discriminate.
  - intros [last [c [s [s' [Hlast [Hmap Hall]]]]]].
    vm_compute in Hlast. inversion Hlast; subst last.
    vm_compute in Hmap. inversion Hmap; subst.
    specialize (Hall _ (or_introl eq_refl) eq_refl).
    vm_compute in Hall. discriminate.
Qed.

Lemma upsert_refresh_keeps_rows_witness :
  In (mkRow 1 (JStr "Aland") JNull JNull (JNum (Fin 10)) (JStr "EUR")
            (JNum (Fin 1)) (JNum (Fin 20000)) JNull 0)
     (rows (db (fst (Upsert.refresh lowest_draw (Ret (JArr [testland_v2]))
                                    (Ret usd_rates) 7 (boot two_countries)))))
  /\ (2 <= List.length
             (rows (db (fst (Upsert.refresh lowest_draw
                               (Ret (JArr [testland_v2])) (Ret usd_rates)
                               7%Z (boot two_countries))))))%nat.
Proof.
  destruct (upsert_refresh_keeps_rows lowest_draw (Ret (JArr [testland_v2]))
              (Ret usd_rates) 7 (boot two_countries)) as [Hlen Hkeep].
  split; [| exact Hlen].
  apply Hkeep.
  - left; reflexivity.
  - intros country [<- | []]. reflexivity.
Defined.

(** ** The invariant of the table *)

Section TableInvariant.
Variable W : World.

Lemma full_replace_quote_db :
  forall (exchangeRates country : JsVal) (st st' : Server)
         (res : Exn (JsVal * JsVal * JsVal)),
    FullReplace.quote W exchangeRates country st = (st', res) ->
    db st' = db st.
Proof.
  intros exchangeRates country st st' res H.
  unfold FullReplace.quote in H. run_monad.
  repeat match type of H with
         | context [match ?x with _ => _ end] => destruct x
         | context [if ?b then _ else _] => destruct b
         end;
    inversion H; subst; simpl; auto.
Qed.

Lemma full_replace_map_db :
  forall (exchangeRates country : JsVal) (st st' : Server) (res : Exn Country),
    FullReplace.map_country W exchangeRates country st = (st', res) ->
    db st' = db st.
Proof.
  intros exchangeRates country st st' res H.
  unfold FullReplace.map_country in H. run_monad.
  destruct (FullReplace.quote W exchangeRates country st) as [st1 q] eqn:Hq.
  apply full_replace_quote_db in Hq.
  repeat match type of H with
         | context [match ?x with _ => _ end] => destruct x
         | context [if ?b then _ else _] => destruct b
         end;
    inversion H; subst; simpl; auto.
Qed.

Lemma insert_rows :
  forall (now : Time) (c : Country) (d d' : Db),
    insert W now c d = Ret d' ->
    rows d'
    = (rows d ++ [mkRow (next_id d) (c_name c) (c_capital c) (c_region c)
                        (c_population c) (c_currency_code c)
                        (c_exchange_rate c) (c_estimated_gdp c)
                        (c_flag_url c) now])%list.
Proof.
  intros now c d d' H. unfold insert, bind in H.
  destruct (check_params W (insert_params c)) as [[]|e]; [| discriminate].
  destruct (is_null (c_name c) || is_null (c_population c)); [discriminate |].
  destruct (existsb (named (c_name c)) (rows d)); [discriminate |].
  inversion H; subst. reflexivity.
Qed.

(** One turn of the full-replace loop either leaves the table as it was,
    or maps the record and appends its row. *)
Lemma full_replace_turn :
  forall (now : Time) (exchangeRates country : JsVal) (st st' : Server)
         (res : Exn bool),
    FullReplace.process_country W now exchangeRates country st = (st', res) ->
    (db st' = db st /\ res <> Ret true)
    \/ (exists stm c,
           FullReplace.map_country W exchangeRates country st = (stm, Ret c)
           /\ insert W now c (db st) = Ret (db st')
           /\ res = Ret true).
Proof.
  intros now exchangeRates country st st' res H.
  unfold FullReplace.process_country in H. unfold try_catch, mbind at 1 in H.
  destruct (FullReplace.map_country W exchangeRates country st)
    as [stm [c|e]] eqn:Hm;
    pose proof (full_replace_map_db _ _ _ _ _ Hm) as Hdb.
  - unfold mbind at 1, execute_write in H. rewrite Hdb in H.
    destruct (insert W now c (db st)) as [d'|e] eqn:Hi.
    + unfold mret in H. inversion H; subst. right.
      exists stm, c. simpl. auto.
    + left. run_monad.
      destruct (get country "name") as [nm|];
      [destruct (interpolate (get_opt nm "common")) as [[]|] |];
      inversion H; subst;
        split; try assumption; discriminate.
  - left. run_monad.
    destruct (get country "name") as [nm|];
      [destruct (interpolate (get_opt nm "common")) as [[]|] |];
      inversion H; subst;
      split; try assumption; discriminate.
Qed.

Lemma mapped_is_guarded :
  forall (exchangeRates country : JsVal) (st st' : Server) (c : Country)
         (key : Z) (nm : JsVal) (now : Time),
    FullReplace.map_country W exchangeRates country st = (st', Ret c)
    \/ Upsert.map_country W exchangeRates country st = (st', Ret c) ->
    gdp_guarded (mkRow key nm (c_capital c) (c_region c) (c_population c)
                       (c_currency_code c) (c_exchange_rate c)
                       (c_estimated_gdp c) (c_flag_url c) now).
Proof.
  intros exchangeRates country st st' c key nm now H.
  unfold gdp_guarded; simpl.
  destruct (mapped_is_quoted W _ _ _ _ _ H) as [[_ Hg] | [Hc [_ Hr]]].
  - intros _; exact Hg.
  - intros [E|E]; [rewrite E in Hc; discriminate | contradiction].
Qed.

Lemma full_replace_loop_guarded :
  forall (now : Time) (exchangeRates : JsVal) (batch : list JsVal)
         (successCount : nat) (st st' : Server) (res : Exn nat),
    FullReplace.process_all W now exchangeRates batch successCount st
    = (st', res) ->
    Forall gdp_guarded (rows (db st)) ->
    Forall gdp_guarded (rows (db st')).
Proof.
  intros now exchangeRates batch.
  induction batch as [|country rest IH]; intros successCount st st' res H Hinv.
  - inversion H; subst. exact Hinv.
  - simpl in H. unfold mbind at 1 in H.
    assert (Hturn : forall st1 r,
               FullReplace.process_country W now exchangeRates country st
               = (st1, r) ->
               Forall gdp_guarded (rows (db st1))).
    { intros st1 r Ht. apply full_replace_turn in Ht.
      destruct Ht as [[Hdb _] | [stm [c [Hm [Hi _]]]]].
      - rewrite Hdb. exact Hinv.
      - rewrite (insert_rows _ _ _ _ Hi). apply Forall_app. split; [exact Hinv |].
        constructor; [| constructor].
        apply (mapped_is_guarded exchangeRates country st stm).
        left; exact Hm. }
    destruct (FullReplace.process_country W now exchangeRates country st)
      as [st1 [ok|e]] eqn:Ht.
    + apply IH in H; [exact H | apply (Hturn _ _ eq_refl)].
    + inversion H; subst. apply (Hturn _ _ eq_refl).
Qed.

Lemma upsert_loop_guarded :
  forall (now : Time) (exchangeRates : JsVal) (batch : list JsVal)
         (processedCount successCount : nat) (st st' : Server)
         (res : Exn (nat * nat)),
    Upsert.process_all W now exchangeRates batch processedCount successCount st
    = (st', res) ->
    Forall gdp_guarded (rows (db st)) ->
    Forall gdp_guarded (rows (db st')).
Proof.
  intros now exchangeRates batch.
  induction batch as [|country rest IH];
    intros processedCount successCount st st' res H Hinv.
  - inversion H; subst. exact Hinv.
  - simpl in H. unfold mbind at 1 in H.
    assert (Hturn : forall st1 r,
               Upsert.process_country W now exchangeRates country st
               = (st1, r) ->
               Forall gdp_guarded (rows (db st1))).
    { intros st1 r Ht. apply upsert_turn in Ht.
      destruct Ht as [[Hdb _] | [stm [c [Hm [Hu _]]]]].
      - rewrite Hdb. exact Hinv.
      - pose proof (upsert_map_db _ _ _ _ _ _ Hm) as [Hdb _].
        rewrite <- Hdb in Hinv.
        apply upsert_cases in Hu.
        destruct Hu as [[e [He _]] | [_ [_ [_ [[_ Hrows] | [_ Hrows]]]]]];
          [discriminate | |]; rewrite Hrows.
        + apply Forall_forall. intros r' Hr'.
          apply in_map_iff in Hr'. destruct Hr' as [r0 [<- Hr0]].
          unfold update_row. destruct (named (c_name c) r0).
          * apply (mapped_is_guarded exchangeRates country st stm).
            right; exact Hm.
          * revert Hr0. apply Forall_forall. exact Hinv.
        + apply Forall_app. split; [exact Hinv |].
          constructor; [| constructor].
          apply (mapped_is_guarded exchangeRates country st stm).
          right; exact Hm. }
    destruct (Upsert.process_country W now exchangeRates country st)
      as [st1 [ok|e]] eqn:Ht.
    + apply IH in H; [exact H | apply (Hturn _ _ eq_refl)].
    + inversion H; subst. apply (Hturn _ _ eq_refl).
Qed.

(** Neither refresh ever stores an estimated GDP next to a null currency
    code or a null exchange rate. *)
Lemma gdp_guard_kept :
  forall (countriesResponse exchangeResponse : Fetch) (now : Time)
         (st : Server),
    Forall gdp_guarded (rows (db st)) ->
    Forall gdp_guarded
      (rows (db (fst (FullReplace.refresh W countriesResponse exchangeResponse
                                          now st))))
    /\ Forall gdp_guarded
         (rows (db (fst (Upsert.refresh W countriesResponse exchangeResponse
                                        now st)))).
Proof.
  intros countriesResponse exchangeResponse now st Hinv. split.
  - unfold FullReplace.refresh. run_monad.
    destruct countriesResponse as [countriesData|e]; [| exact Hinv].
    destruct exchangeResponse as [exchangeData|e]; [| exact Hinv].
    destruct (get exchangeData "rates") as [exchangeRates|e]; [| exact Hinv].
    destruct (get countriesData "length") as [len|e]; [| exact Hinv].
    destruct (interpolate len) as [[]|e]; [| exact Hinv].
    simpl.
    destruct (slice_prefix countriesData FullReplace.batch_cap) as [batch|e];
      [| simpl; constructor].
    destruct (FullReplace.process_all W now exchangeRates batch 0 _)
      as [st1 res] eqn:Hloop.
    apply full_replace_loop_guarded in Hloop; [| simpl; constructor].
    destruct res; exact Hloop.
  - unfold Upsert.refresh. run_monad.
    destruct countriesResponse as [countriesData|e]; [| exact Hinv].
    destruct exchangeResponse as [exchangeData|e]; [| exact Hinv].
    destruct (get exchangeData "rates") as [exchangeRates|e]; [| exact Hinv].
    destruct (get countriesData "length") as [len|e]; [| exact Hinv].
    destruct (interpolate len) as [[]|e]; [| exact Hinv].
    destruct (slice_prefix countriesData Upsert.batch_cap) as [batch|e];
      [| exact Hinv].
    destruct (Upsert.process_all W now exchangeRates batch 0 0 st)
      as [st1 res] eqn:Hloop.
    apply upsert_loop_guarded in Hloop; [| exact Hinv].
    destruct res as [[p s]|e]; exact Hloop.
Qed.

End TableInvariant.

(** ** The reported time of the last refresh *)

Section LastRefresh.
Variable W : World.

Lemma upsert_loop_last :
  forall (now : Time) (exchangeRates : JsVal) (batch : list JsVal)
         (processedCount successCount : nat) (st st' : Server)
         (res : Exn (nat * nat)),
    Upsert.process_all W now exchangeRates batch processedCount successCount st
    = (st', res) ->
    lastRefreshTime st' = lastRefreshTime st.
Proof.
  intros now exchangeRates batch.
  induction batch as [|country rest IH];
    intros processedCount successCount st st' res H.
  - inversion H; subst. reflexivity.
  - simpl in H. unfold mbind at 1 in H.
    assert (Hturn : forall st1 r,
               Upsert.process_country W now exchangeRates country st = (st1, r) ->
               lastRefreshTime st1 = lastRefreshTime st).
    { intros st1 r Ht. apply upsert_turn in Ht.
      destruct Ht as [[_ [Hlast _]] | [stm [c [Hm [Hu _]]]]]; [exact Hlast |].
      apply upsert_map_db in Hm. destruct Hm as [_ Hlast].
      apply upsert_cases in Hu.
      destruct Hu as [[e [He _]] | [_ [_ [Hlast' _]]]]; [discriminate |].
      congruence. }
    destruct (Upsert.process_country W now exchangeRates country st)
      as [st1 [ok|e]] eqn:Ht.
    + apply IH in H. rewrite H. apply (Hturn _ _ eq_refl).
    + inversion H; subst. apply (Hturn _ _ eq_refl).
Qed.

(** A refresh sets [lastRefreshTime] when it completes and only then. *)
Lemma refresh_sets_last :
  forall (countriesResponse exchangeResponse : Fetch) (now : Time)
         (st : Server),
    lastRefreshTime
      (fst (Upsert.refresh W countriesResponse exchangeResponse now st))
    = Upsert.or_time
        (completed (Refresh countriesResponse exchangeResponse now)
           (snd (Upsert.refresh W countriesResponse exchangeResponse now st)))
        (lastRefreshTime st).
Proof.
  intros countriesResponse exchangeResponse now st.
  assert (Herr : forall e, (status (Upsert.refresh_error e) =? 200) = false).
  { intros e. apply Z.eqb_neq. apply upsert_error_status. }
  unfold Upsert.refresh, completed. run_monad.
  destruct countriesResponse as [countriesData|e];
    [| simpl; rewrite Herr; reflexivity].
  destruct exchangeResponse as [exchangeData|e];
    [| simpl; rewrite Herr; reflexivity].
  destruct (get exchangeData "rates") as [exchangeRates|e];
    [| simpl; rewrite Herr; reflexivity].
  destruct (get countriesData "length") as [len|e];
    [| simpl; rewrite Herr; reflexivity].
  destruct (interpolate len) as [[]|e];
    [| simpl; rewrite Herr; reflexivity].
  destruct (slice_prefix countriesData Upsert.batch_cap) as [batch|e];
    [| simpl; rewrite Herr; reflexivity].
  destruct (Upsert.process_all W now exchangeRates batch 0 0 st)
    as [st1 [[p s]|e]] eqn:Hloop; apply upsert_loop_last in Hloop.
  - reflexivity.
  - simpl. rewrite Herr. exact Hloop.
Qed.

Lemma handle_sets_last :
  forall (req : Request) (st : Server),
    lastRefreshTime (fst (handle W req st))
    = Upsert.or_time (completed req (snd (handle W req st)))
                     (lastRefreshTime st).
Proof.
  intros [countriesResponse exchangeResponse now | by_region by_currency sort |]
         st.
  - apply refresh_sets_last.
  - reflexivity.
  - reflexivity.
Qed.

Lemma serve_last :
  forall (reqs : list Request) (st st' : Server) (resps : list Response),
    serve W reqs st = (st', resps) ->
    lastRefreshTime st'
    = Upsert.or_time (last_completed (combine reqs resps))
                     (lastRefreshTime st).
Proof.
  induction reqs as [|req rest IH]; intros st st' resps H; simpl in H.
  - inversion H; subst. reflexivity.
  - pose proof (handle_sets_last req st) as Hstep.
    destruct (handle W req st) as [st1 resp]. simpl in Hstep.
    destruct (serve W rest st1) as [st2 resps'] eqn:Hrest.
    inversion H; subst. apply IH in Hrest. simpl.
    rewrite Hrest, Hstep.
    destruct (last_completed (combine rest resps')); reflexivity.
Qed.

(** C10: over an empty table, [GET /status] of the upsert server reports
    the process-global [lastRefreshTime]: null as long as no refresh of
    this process has completed, and the completion time of the most recent
    one afterwards, whatever the table holds. *)
Theorem status_on_empty_table :
  forall (d : Db) (reqs : list Request) (st : Server)
         (resps : list Response),
    serve W reqs (boot d) = (st, resps) ->
    rows (db st) = [] ->
    Upsert.get_status st
    = (st, mkResponse 200
             (BStatus 0 (last_completed (combine reqs resps)))).
Proof.
  intros d reqs st resps Hrun Hempty.
  apply serve_last in Hrun. simpl in Hrun.
  unfold Upsert.get_status. run_monad.
  unfold count_all, max_last_refreshed_at. rewrite Hempty. simpl.
  rewrite Hrun.
  destruct (last_completed (combine reqs resps)); reflexivity.
Qed.

End LastRefresh.

Lemma status_on_empty_table_witness :
  snd (serve lowest_draw empty_refresh_run (boot empty_db))
  = [mkResponse 200 (BStatus 0 None);
     mkResponse 200
       (BUpserted "Successfully refreshed 0 out of 0 countries" 0 0 42);
     mkResponse 200 (BStatus 0 (Some 42))]
  /\ rows (db (fst (serve lowest_draw empty_refresh_run (boot empty_db)))) = []
  /\ Upsert.get_status (fst (serve lowest_draw empty_refresh_run
                                   (boot empty_db)))
     = (fst (serve lowest_draw empty_refresh_run (boot empty_db)),
        mkResponse 200 (BStatus 0 (Some 42))).
Proof.
  split; [reflexivity |]. split; [reflexivity |].
  apply (status_on_empty_table lowest_draw empty_db empty_refresh_run
           _ _ eq_refl eq_refl).
Defined.

(** * Further properties *)

(** ** The random helper *)

Local Open Scope Q_scope.



Local Close Scope Q_scope.

(** ** What a full-replace refresh leaves in the table *)

Section FullReplaceTable.
Variable W : World.

(** The loop only appends: one row, stamped with the time of the refresh,
    per record that counts as a success. *)
Lemma full_replace_loop_appends :
  forall (now : Time) (exchangeRates : JsVal) (batch : list JsVal)
         (successCount : nat) (st st' : Server) (res : Exn nat),
    FullReplace.process_all W now exchangeRates batch successCount st
    = (st', res) ->
    exists added,
      rows (db st') = (rows (db st) ++ added)%list
      /\ Forall (fun r => last_refreshed_at r = now) added
      /\ (List.length added <= List.length batch)%nat
      /\ forall n, res = Ret n -> n = (successCount + List.length added)%nat.
Proof.
  intros now exchangeRates batch.
  induction batch as [|country rest IH]; intros successCount st st' res H.
  - inversion H; subst. exists []. rewrite app_nil_r. simpl.
    repeat split; auto. intros n E; inversion E; lia.
  - simpl in H. unfold mbind at 1 in H.
    destruct (FullReplace.process_country W now exchangeRates country st)
      as [st1 r] eqn:Ht.
    apply full_replace_turn in Ht.
    destruct Ht as [[Hdb Hr] | [stm [c [Hm [Hi Hr]]]]].
    + destruct r as [ok|e].
      * destruct ok; [congruence |].
        apply IH in H. destruct H as [added [Hrows [Hnow [Hlen Hn]]]].
        exists added. rewrite Hrows, Hdb. simpl. repeat split; auto.
      * inversion H; subst. exists []. rewrite app_nil_r, Hdb. simpl.
        repeat split; auto; [lia | discriminate].
    + subst r. apply IH in H. destruct H as [added [Hrows [Hnow [Hlen Hn]]]].
      apply insert_rows in Hi.
      eexists (_ :: added). rewrite Hrows, Hi, <- app_assoc. simpl.
      split; [reflexivity |].
      split; [constructor; [reflexivity | exact Hnow] |].
      split; [lia |].
      intros n E. apply Hn in E. lia.
Qed.

(** X2: once both fetches of a full-replace refresh have delivered (payloads
    that are not [null], the [length] of the country payload being one the
    log line can print), the table holds nothing but rows this refresh
    wrote, at most 50 of them, whatever the answer is; when the answer is
    201, their number is the reported [total_countries]. *)
Theorem full_replace_refresh_replaces :
  forall (countriesData exchangeData : JsVal) (now : Time) (st : Server),
    nullish countriesData = false ->
    nullish exchangeData = false ->
    convertible (get_opt countriesData "length") = true ->
    Forall (fun r => last_refreshed_at r = now)
           (rows (db (fst (FullReplace.refresh W (Ret countriesData)
                                               (Ret exchangeData) now st))))
    /\ (List.length
          (rows (db (fst (FullReplace.refresh W (Ret countriesData)
                                              (Ret exchangeData) now st))))
        <= FullReplace.batch_cap)%nat
    /\ forall msg total_countries t,
        body (snd (FullReplace.refresh W (Ret countriesData)
                                       (Ret exchangeData) now st))
        = BRefreshed msg total_countries t ->
        List.length
          (rows (db (fst (FullReplace.refresh W (Ret countriesData)
                                              (Ret exchangeData) now st))))
        = total_countries
        /\ t = now.
Proof.
  intros countriesData exchangeData now st Hc Hx Hprint.
  unfold FullReplace.refresh. run_monad.
  rewrite (get_defined exchangeData) by exact Hx.
  rewrite (get_defined countriesData) by exact Hc.
  unfold interpolate. rewrite Hprint.
  simpl.
  destruct (slice_prefix countriesData FullReplace.batch_cap)
    as [batch|e] eqn:Hb.
  - destruct (FullReplace.process_all W now
                (get_opt exchangeData "rates") batch 0 _)
      as [st1 res] eqn:Hloop.
    apply full_replace_loop_appends in Hloop.
    destruct Hloop as [added [Hrows [Hnow [Hlen Hn]]]].
    simpl in Hrows. apply slice_prefix_length in Hb.
    destruct res as [n|e]; simpl; rewrite Hrows.
    + split; [exact Hnow |]. split; [lia |].
      intros msg total t E. inversion E; subst.
      split; [| reflexivity]. rewrite (Hn total eq_refl). reflexivity.
    + split; [exact Hnow |]. split; [lia |].
      intros msg total t E.
      unfold FullReplace.refresh_error, internal_error in E.
      destruct (_ || _); discriminate E.
  - simpl. split; [constructor |]. split; [apply Nat.le_0_l |].
    intros msg total t E.
    unfold FullReplace.refresh_error, internal_error in E.
    destruct (_ || _); discriminate E.
Qed.

End FullReplaceTable.

Lemma full_replace_refresh_replaces_witness :
  map last_refreshed_at
      (rows (db (fst (FullReplace.refresh lowest_draw
                        (Ret (JArr [testland; JNull; testland]))
                        (Ret usd_rates) 7 (boot two_countries)))))
  = [7]
  /\ status (snd (FullReplace.refresh lowest_draw
                    (Ret (JArr [testland; JNull; testland]))
                    (Ret usd_rates) 7 (boot two_countries))) = 500
  /\ Forall (fun r => last_refreshed_at r = 7)
       (rows (db (fst (FullReplace.refresh lowest_draw
                         (Ret (JArr [testland; JNull; testland]))
                         (Ret usd_rates) 7 (boot two_countries))))).
Proof.
  split; [reflexivity |]. split; [reflexivity |].
  apply (full_replace_refresh_replaces lowest_draw
           (JArr [testland; JNull; testland]) usd_rates 7
           (boot two_countries)); reflexivity.
Defined.

(** Without the condition on [length] the refresh may fail at its log line,
    before the [DELETE]: the rows of the table are then the old ones. *)
Lemma unprintable_length_keeps_rows :
  nullish unprintable_length = false
  /\ FullReplace.refresh lowest_draw (Ret unprintable_length) (Ret usd_rates)
                         7 (boot two_countries)
     = (boot two_countries,
        internal_error (Some "Cannot convert object to primitive value"))
  /\ map last_refreshed_at (rows two_countries) = [0; 0].
Proof. repeat split. Qed.

(** ** Insert, then look up *)



Section FirstWrite.
Variable W : World.





End FirstWrite.


(** ** A [null] among the upstream records *)

Section NullRecord.
Variable W : World.

Lemma array_length :
  forall l : list JsVal,
    get (JArr l) "length" = Ret (JNum (num_of_nat (List.length l))).
Proof. reflexivity. Qed.

Lemma full_replace_turn_throw :
  forall (now : Time) (exchangeRates country : JsVal) (st st' : Server)
         (e : JsError),
    FullReplace.process_country W now exchangeRates country st
    = (st', Throw e) ->
    err_code e = JUndefined /\ err_response e = JUndefined.
Proof.
  intros now exchangeRates country st st' e H.
  unfold FullReplace.process_country, try_catch in H.
  destruct (mbind _ _ st) as [st1 [ok|e1]]; [discriminate |].
  unfold mbind, lift, mret in H.
  destruct (get country "name") as [nm|e2] eqn:Hn.
  - unfold interpolate in H.
    destruct (convertible _); inversion H; subst; auto.
  - destruct country; simpl in Hn; inversion Hn; subst;
      inversion H; subst; auto.
Qed.

Lemma upsert_turn_throw :
  forall (now : Time) (exchangeRates country : JsVal) (st st' : Server)
         (e : JsError),
    Upsert.process_country W now exchangeRates country st = (st', Throw e) ->
    err_code e = JUndefined /\ err_response e = JUndefined.
Proof.
  intros now exchangeRates country st st' e H.
  unfold Upsert.process_country, try_catch in H.
  destruct (mbind _ _ st) as [st1 [ok|e1]]; [discriminate |].
  unfold mbind, lift, mret in H.
  destruct (get country "name") as [nm|e2] eqn:Hn.
  - unfold interpolate in H.
    destruct (convertible _); inversion H; subst; auto.
  - destruct country; simpl in Hn; inversion Hn; subst;
      inversion H; subst; auto.
Qed.

Lemma full_replace_turn_null :
  forall (now : Time) (exchangeRates country : JsVal) (st : Server),
    nullish country = true ->
    exists e,
      FullReplace.process_country W now exchangeRates country st
      = (st, Throw e).
Proof.
  intros now exchangeRates country st H.
  destruct country; simpl in H; try discriminate; eexists; reflexivity.
Qed.

Lemma upsert_turn_null :
  forall (now : Time) (exchangeRates country : JsVal) (st : Server),
    nullish country = true ->
    exists e,
      Upsert.process_country W now exchangeRates country st = (st, Throw e).
Proof.
  intros now exchangeRates country st H.
  destruct country; simpl in H; try discriminate; eexists; reflexivity.
Qed.

Lemma full_replace_loop_null :
  forall (now : Time) (exchangeRates : JsVal) (batch : list JsVal)
         (successCount : nat) (st : Server) (x : JsVal),
    In x batch -> nullish x = true ->
    exists st' e,
      FullReplace.process_all W now exchangeRates batch successCount st
      = (st', Throw e)
      /\ err_code e = JUndefined /\ err_response e = JUndefined.
Proof.
  intros now exchangeRates batch.
  induction batch as [|country rest IH]; intros successCount st x Hin Hx.
  - contradiction.
  - simpl. unfold mbind at 1.
    destruct (FullReplace.process_country W now exchangeRates country st)
      as [st1 [ok|e]] eqn:Ht.
    + destruct Hin as [-> | Hin].
      * destruct (full_replace_turn_null now exchangeRates x st Hx) as [e He].
        congruence.
      * apply (IH _ _ x Hin Hx).
    + exists st1, e. split; [reflexivity |].
      apply (full_replace_turn_throw _ _ _ _ _ _ Ht).
Qed.

Lemma upsert_loop_null :
  forall (now : Time) (exchangeRates : JsVal) (batch : list JsVal)
         (processedCount successCount : nat) (st : Server) (x : JsVal),
    In x batch -> nullish x = true ->
    exists st' e,
      Upsert.process_all W now exchangeRates batch processedCount
                         successCount st
      = (st', Throw e)
      /\ err_code e = JUndefined /\ err_response e = JUndefined.
Proof.
  intros now exchangeRates batch.
  induction batch as [|country rest IH];
    intros processedCount successCount st x Hin Hx.
  - contradiction.
  - simpl. unfold mbind at 1.
    destruct (Upsert.process_country W now exchangeRates country st)
      as [st1 [ok|e]] eqn:Ht.
    + destruct Hin as [-> | Hin].
      * destruct (upsert_turn_null now exchangeRates x st Hx) as [e He].
        congruence.
      * apply (IH _ _ _ x Hin Hx).
    + exists st1, e. split; [reflexivity |].
      apply (upsert_turn_throw _ _ _ _ _ _ Ht).
Qed.

(** X5: one [null] among the processed records makes the whole refresh
    fail.  The [catch] block of the loop reads [country.name] and throws
    itself, so both servers answer 500; the upsert server then leaves
    [lastRefreshTime] as it was (the full-replace server has emptied the
    table by then, see X2). *)
Theorem null_record_aborts_refresh :
  forall (records : list JsVal) (exchangeData : JsVal) (now : Time)
         (st : Server) (x : JsVal),
    nullish exchangeData = false ->
    nullish x = true ->
    In x (firstn Upsert.batch_cap records) ->
    status (snd (FullReplace.refresh W (Ret (JArr records)) (Ret exchangeData)
                                     now st)) = 500
    /\ status (snd (Upsert.refresh W (Ret (JArr records)) (Ret exchangeData)
                                   now st)) = 500
    /\ lastRefreshTime (fst (Upsert.refresh W (Ret (JArr records))
                                            (Ret exchangeData) now st))
       = lastRefreshTime st.
Proof.
  intros records exchangeData now st x Hx Hnull Hin.
  assert (Hin50 : In x (firstn FullReplace.batch_cap records)).
  { unfold Upsert.batch_cap, FullReplace.batch_cap in *.
    rewrite <- (firstn_skipn 10 (firstn 50 records)).
    apply in_or_app. left. rewrite firstn_firstn. exact Hin. }
  split; [| split].
  - unfold FullReplace.refresh. run_monad.
    rewrite (get_defined exchangeData) by exact Hx.
    rewrite array_length.
    cbv beta iota fix delta [interpolate convertible slice_prefix].
    destruct (full_replace_loop_null now (get_opt exchangeData "rates")
                _ 0 (with_db st (delete_all (db st))) x Hin50 Hnull)
      as [st' [e [Hloop [Hcode Hresp]]]].
    rewrite Hloop. cbv beta iota delta [snd].
    unfold FullReplace.refresh_error. rewrite Hcode, Hresp. reflexivity.
  - unfold Upsert.refresh. run_monad.
    rewrite (get_defined exchangeData) by exact Hx.
    rewrite array_length.
    cbv beta iota fix delta [interpolate convertible slice_prefix].
    destruct (upsert_loop_null now (get_opt exchangeData "rates")
                _ 0 0 st x Hin Hnull)
      as [st' [e [Hloop [Hcode Hresp]]]].
    rewrite Hloop. cbv beta iota delta [snd].
    unfold Upsert.refresh_error. rewrite Hresp. reflexivity.
  - unfold Upsert.refresh. run_monad.
    rewrite (get_defined exchangeData) by exact Hx.
    rewrite array_length.
    cbv beta iota fix delta [interpolate convertible slice_prefix].
    destruct (upsert_loop_null now (get_opt exchangeData "rates")
                _ 0 0 st x Hin Hnull)
      as [st' [e [Hloop _]]].
    rewrite Hloop. cbv beta iota delta [fst].
    apply (upsert_loop_last W _ _ _ _ _ _ _ _ Hloop).
Qed.

End NullRecord.

Lemma null_record_aborts_refresh_witness :
  status (snd (FullReplace.refresh lowest_draw
                 (Ret (JArr [testland; JNull; testland]))
                 (Ret usd_rates) 7 (boot two_countries))) = 500
  /\ status (snd (Upsert.refresh lowest_draw
                    (Ret (JArr [testland; JNull; testland]))
                    (Ret usd_rates) 7 (boot two_countries))) = 500
  /\ lastRefreshTime (fst (Upsert.refresh lowest_draw
                             (Ret (JArr [testland; JNull; testland]))
                             (Ret usd_rates) 7 (boot two_countries)))
     = None.
Proof.
  apply (null_record_aborts_refresh lowest_draw [testland; JNull; testland]
           usd_rates 7 (boot two_countries) JNull).
  - reflexivity.
  - reflexivity.
  - simpl. auto.
Defined.

(** ** Degenerate upstream payloads *)

Section DegeneratePayloads.
Variable W : World.

(** X6: an empty country list is a success in both servers.  The
    full-replace server answers 201 with a count of 0 and leaves the table
    empty, whatever it held; the upsert server answers 200 with two zeros,
    leaves the table alone and sets [lastRefreshTime]. *)
Theorem refresh_of_empty_list :
  forall (exchangeData : JsVal) (now : Time) (st : Server),
    nullish exchangeData = false ->
    FullReplace.refresh W (Ret (JArr [])) (Ret exchangeData) now st
    = (mkServer (mkDb [] (next_id (db st))) (draws st) (lastRefreshTime st),
       mkResponse 201
         (BRefreshed "Successfully refreshed 0 countries" 0 now))
    /\ Upsert.refresh W (Ret (JArr [])) (Ret exchangeData) now st
       = (mkServer (db st) (draws st) (Some now),
          mkResponse 200
            (BUpserted "Successfully refreshed 0 out of 0 countries" 0 0 now)).
Proof.
  intros exchangeData now st Hx.
  unfold FullReplace.refresh, Upsert.refresh. run_monad.
  rewrite (get_defined exchangeData) by exact Hx.
  split; reflexivity.
Qed.

(** X7: a country payload that is neither a list nor a string (an error
    object, a number) makes both servers answer 500 with the message of the
    [TypeError] that [countries.slice(...)] in the loop header raises (the
    log line before it printed the [length] of the payload, if it has one).
    The full-replace server has deleted every row by then; the upsert server
    has changed nothing. *)
Theorem refresh_of_malformed_list :
  forall (countriesData exchangeData : JsVal) (now : Time) (st : Server),
    nullish exchangeData = false ->
    parsed countriesData = true ->
    countriesData <> JNull ->
    (forall l, countriesData <> JArr l) ->
    (forall s, countriesData <> JStr s) ->
    convertible (get_opt countriesData "length") = true ->
    let failure :=
      internal_error
        (Some "countries.slice is not a function or its return value is not iterable") in
    FullReplace.refresh W (Ret countriesData) (Ret exchangeData) now st
    = (mkServer (mkDb [] (next_id (db st))) (draws st) (lastRefreshTime st),
       failure)
    /\ Upsert.refresh W (Ret countriesData) (Ret exchangeData) now st
       = (st, failure).
Proof.
  intros countriesData exchangeData now st Hx Hp Hnull Harr Hstr Hprint
         failure.
  assert (Hc : nullish countriesData = false).
  { destruct countriesData; try reflexivity; [discriminate Hp |].
    exfalso. apply Hnull. reflexivity. }
  unfold FullReplace.refresh, Upsert.refresh. run_monad.
  rewrite (get_defined exchangeData) by exact Hx.
  rewrite !(get_defined countriesData) by exact Hc.
  unfold interpolate. rewrite Hprint.
  destruct countriesData; try discriminate Hp; try discriminate Hc.
  - split; reflexivity.
  - split; reflexivity.
  - exfalso. apply (Hstr s). reflexivity.
  - exfalso. apply (Harr elems). reflexivity.
  - split; reflexivity.
Qed.

End DegeneratePayloads.

Lemma refresh_of_empty_list_witness :
  rows (db (fst (FullReplace.refresh lowest_draw (Ret (JArr []))
                                     (Ret usd_rates) 7 (boot two_countries))))
  = []
  /\ rows (db (fst (Upsert.refresh lowest_draw (Ret (JArr []))
                                   (Ret usd_rates) 7 (boot two_countries))))
     = rows two_countries.
Proof.
  destruct (refresh_of_empty_list lowest_draw usd_rates 7 (boot two_countries)
              eq_refl) as [H1 H2].
  rewrite H1, H2. split; reflexivity.
Defined.

Lemma refresh_of_malformed_list_witness :
  FullReplace.refresh lowest_draw
    (Ret (JObj [("message", JStr "Not Found")])) (Ret usd_rates) 7
    (boot two_countries)
  = (mkServer (mkDb [] 3) 0 None,
     internal_error
       (Some "countries.slice is not a function or its return value is not iterable"))
  /\ Upsert.refresh lowest_draw
       (Ret (JObj [("message", JStr "Not Found")])) (Ret usd_rates) 7
       (boot two_countries)
     = (boot two_countries,
        internal_error
          (Some "countries.slice is not a function or its return value is not iterable")).
Proof.
  apply (refresh_of_malformed_list lowest_draw
           (JObj [("message", JStr "Not Found")]) usd_rates 7
           (boot two_countries)).
  - reflexivity.
  - reflexivity.
  - discriminate.
  - intros l; discriminate.
  - intros s; discriminate.
  - reflexivity.
Defined.

(** ** Deleting by name *)

Lemma filter_all :
  forall (A : Type) (f : A -> bool) (l : list A),
    (forall x, In x l -> f x = true) -> filter f l = l.
Proof.
  intros A f l H. induction l as [|x l IH]; simpl; [reflexivity |].
  rewrite (H x) by (left; reflexivity).
  f_equal. apply IH. intros y Hy. apply H. right; exact Hy.
Qed.

(** X8: [DELETE /countries/:name] removes the rows of that name and no
    other.  It answers 204 when there was such a row and 404 when there was
    none, in which case the state is untouched. *)
Theorem delete_country_removes_exactly :
  forall (countryName : string) (st : Server),
    countryName <> "" ->
    (forall r,
        In r (rows (db (fst (FullReplace.delete_country countryName st))))
        <-> In r (rows (db st)) /\ name r <> JStr countryName)
    /\ ((exists r, In r (rows (db st)) /\ name r = JStr countryName) ->
        snd (FullReplace.delete_country countryName st)
        = mkResponse 204 BEmpty)
    /\ ((forall r, In r (rows (db st)) -> name r <> JStr countryName) ->
        FullReplace.delete_country countryName st = (st, not_found)).
Proof.
  intros countryName st Hne.
  pose proof (nonempty_is_truthy countryName Hne) as Ht.
  unfold FullReplace.delete_country. rewrite Ht. simpl.
  unfold respond, delete_by_name. simpl.
  split; [| split].
  - intros r. rewrite filter_In. unfold named.
    split; intros [Hin Hn]; (split; [exact Hin |]).
    + intros E. rewrite E in Hn. simpl in Hn.
      rewrite String.eqb_refl in Hn. discriminate.
    + destruct (sql_eq (name r) (JStr countryName)) eqn:E; [| reflexivity].
      apply sql_eq_string in E. contradiction.
  - intros [r [Hin Hn]].
    destruct (filter (named (JStr countryName)) (rows (db st))) eqn:Ef.
    + assert (Hr : In r (filter (named (JStr countryName)) (rows (db st)))).
      { apply filter_In. split; [exact Hin |].
        apply sql_eq_string. exact Hn. }
      rewrite Ef in Hr. contradiction.
    + reflexivity.
  - intros Hnone.
    assert (Hfalse : forall r, In r (rows (db st)) ->
                               named (JStr countryName) r = false).
    { intros r Hr. unfold named.
      destruct (sql_eq (name r) (JStr countryName)) eqn:E; [| reflexivity].
      apply sql_eq_string in E. exfalso. exact (Hnone r Hr E). }
    rewrite (filter_none _ _ _ Hfalse). simpl.
    rewrite filter_all.
    + destruct st as [[l k] dr lt]. reflexivity.
    + intros r Hr. rewrite (Hfalse r Hr). reflexivity.
Qed.

Lemma delete_country_removes_exactly_witness :
  map name (rows (db (fst (FullReplace.delete_country "Aland"
                             (boot two_countries)))))
  = [JStr "Bland"]
  /\ snd (FullReplace.delete_country "Aland" (boot two_countries))
     = mkResponse 204 BEmpty
  /\ FullReplace.delete_country "Cland" (boot two_countries)
     = (boot two_countries, not_found).
Proof.
  assert (Hne : forall s c, String c s <> "") by (intros s c H; discriminate H).
  destruct (delete_country_removes_exactly "Aland" (boot two_countries)
              (Hne _ _)) as [_ [Hsome _]].
  destruct (delete_country_removes_exactly "Cland" (boot two_countries)
              (Hne _ _)) as [_ [_ Hnone]].
  split; [reflexivity |]. split.
  - apply Hsome. eexists. split; [left; reflexivity | reflexivity].
  - apply Hnone. intros r Hr.
    simpl in Hr. destruct Hr as [<- | [<- | []]]; discriminate.
Defined.

(** ** The status report *)

Lemma fold_max_spec :
  forall (l : list Z) (a : Z),
    a <= fold_left Z.max l a
    /\ (forall x, In x l -> x <= fold_left Z.max l a)
    /\ (fold_left Z.max l a = a \/ In (fold_left Z.max l a) l).
Proof.
  induction l as [|y l IH]; intros a; simpl.
  - split; [lia |]. split; [intros x [] | left; reflexivity].
  - destruct (IH (Z.max a y)) as [H1 [H2 H3]].
    split; [lia |]. split.
    + intros x [<- | Hx]; [lia | apply H2, Hx].
    + destruct H3 as [H3 | H3]; [| right; right; exact H3].
      rewrite H3. destruct (Z.max_spec a y) as [[_ E] | [_ E]]; rewrite E.
      * right; left; reflexivity.
      * left; reflexivity.
Qed.

Lemma max_last_refreshed_at_spec :
  forall d : Db,
    match max_last_refreshed_at d with
    | None => rows d = []
    | Some t =>
        (exists r, In r (rows d) /\ last_refreshed_at r = t)
        /\ forall r, In r (rows d) -> last_refreshed_at r <= t
    end.
Proof.
  intros d. unfold max_last_refreshed_at.
  destruct (rows d) as [|r rest]; [reflexivity |].
  destruct (fold_max_spec (map last_refreshed_at rest) (last_refreshed_at r))
    as [H1 [H2 H3]].
  split.
  - destruct H3 as [H3 | H3].
    + exists r. split; [left; reflexivity | symmetry; exact H3].
    + apply in_map_iff in H3. destruct H3 as [x [Hx Hin]].
      exists x. split; [right; exact Hin | exact Hx].
  - intros x [<- | Hx]; [exact H1 |].
    apply H2. apply in_map. exact Hx.
Qed.

(** X9: over a table that is not empty, [GET /status] of either server
    reports the number of rows and the latest [last_refreshed_at] among
    them; the upsert server ignores its [lastRefreshTime] then.  Over an
    empty table the full-replace server reports null. *)
Theorem status_reports_latest_row :
  forall st : Server,
    (rows (db st) = [] ->
     FullReplace.get_status st = (st, mkResponse 200 (BStatus 0 None)))
    /\ (rows (db st) <> [] ->
        exists t,
          FullReplace.get_status st
          = (st, mkResponse 200
                   (BStatus (List.length (rows (db st))) (Some t)))
          /\ Upsert.get_status st
             = (st, mkResponse 200
                      (BStatus (List.length (rows (db st))) (Some t)))
          /\ (exists r, In r (rows (db st)) /\ last_refreshed_at r = t)
          /\ forall r, In r (rows (db st)) -> last_refreshed_at r <= t).
Proof.
  intros st. split.
  - intros Hempty. unfold FullReplace.get_status. run_monad.
    unfold count_all, max_last_refreshed_at. rewrite Hempty. reflexivity.
  - intros Hsome.
    pose proof (max_last_refreshed_at_spec (db st)) as Hmax.
    unfold FullReplace.get_status, Upsert.get_status. run_monad.
    unfold count_all.
    destruct (max_last_refreshed_at (db st)) as [t|]; [| contradiction].
    exists t. destruct Hmax as [Hex Hall].
    repeat split; assumption.
Qed.

Lemma status_reports_latest_row_witness :
  exists t,
    Upsert.get_status (mkServer two_countries 0 (Some 99))
    = (mkServer two_countries 0 (Some 99), mkResponse 200 (BStatus 2 (Some t)))
    /\ forall r, In r (rows two_countries) -> last_refreshed_at r <= t.
Proof.
  destruct (status_reports_latest_row (mkServer two_countries 0 (Some 99)))
    as [_ H].
  destruct H as [t [_ [Hup [_ Hall]]]]; [discriminate |].
  exists t. split; [exact Hup | exact Hall].
Defined.

Section StatusAfterRefresh.
Variable W : World.

Lemma all_stamped_max :
  forall (d : Db) (now : Time),
    Forall (fun r => last_refreshed_at r = now) (rows d) ->
    max_last_refreshed_at d
    = if Nat.eqb (List.length (rows d)) 0 then None else Some now.
Proof.
  intros d now Hall.
  pose proof (max_last_refreshed_at_spec d) as Hmax.
  destruct (max_last_refreshed_at d) as [t|].
  - destruct Hmax as [[r [Hin Ht]] _].
    rewrite Forall_forall in Hall. rewrite (Hall r Hin) in Ht. subst t.
    destruct (rows d); [contradiction | reflexivity].
  - rewrite Hmax. reflexivity.
Qed.

Lemma full_replace_refresh_rows :
  forall (countriesResponse exchangeResponse : Fetch) (now : Time)
         (st : Server) (msg : string) (total_countries : nat) (t : Time),
    body (snd (FullReplace.refresh W countriesResponse exchangeResponse
                                   now st))
    = BRefreshed msg total_countries t ->
    Forall (fun r => last_refreshed_at r = now)
           (rows (db (fst (FullReplace.refresh W countriesResponse
                                               exchangeResponse now st))))
    /\ List.length
         (rows (db (fst (FullReplace.refresh W countriesResponse
                                             exchangeResponse now st))))
       = total_countries.
Proof.
  intros countriesResponse exchangeResponse now st msg total t.
  assert (Herr : forall e, body (FullReplace.refresh_error e)
                           <> BRefreshed msg total t).
  { intros e. unfold FullReplace.refresh_error, internal_error.
    destruct (_ || _); discriminate. }
  unfold FullReplace.refresh. run_monad.
  destruct countriesResponse as [countriesData|e];
    [| intros E; destruct (Herr _ E)].
  destruct exchangeResponse as [exchangeData|e];
    [| intros E; destruct (Herr _ E)].
  destruct (get exchangeData "rates") as [exchangeRates|e];
    [| intros E; destruct (Herr _ E)].
  destruct (get countriesData "length") as [len|e];
    [| intros E; destruct (Herr _ E)].
  destruct (interpolate len) as [[]|e];
    [| intros E; destruct (Herr _ E)].
  simpl.
  destruct (slice_prefix countriesData FullReplace.batch_cap) as [batch|e];
    [| intros E; destruct (Herr _ E)].
  destruct (FullReplace.process_all W now exchangeRates batch 0 _)
    as [st1 res] eqn:Hloop.
  apply full_replace_loop_appends in Hloop.
  destruct Hloop as [added [Hrows [Hnow [_ Hn]]]]. simpl in Hrows.
  destruct res as [n|e]; [| intros E; destruct (Herr _ E)].
  simpl. intros E. injection E as _ Hcount _. subst n.
  rewrite Hrows. split; [exact Hnow |].
  rewrite (Hn total eq_refl). reflexivity.
Qed.

(** X10: a [GET /status] that follows a completed full-replace refresh
    reports the [total_countries] of that refresh and its time, or null
    when the refresh stored nothing. *)
Theorem status_after_full_replace :
  forall (countriesResponse exchangeResponse : Fetch) (now : Time)
         (st : Server) (msg : string) (total_countries : nat) (t : Time),
    body (snd (FullReplace.refresh W countriesResponse exchangeResponse
                                   now st))
    = BRefreshed msg total_countries t ->
    snd (FullReplace.get_status
           (fst (FullReplace.refresh W countriesResponse exchangeResponse
                                     now st)))
    = mkResponse 200
        (BStatus total_countries
           (if Nat.eqb total_countries 0 then None else Some now)).
Proof.
  intros countriesResponse exchangeResponse now st msg total t E.
  destruct (full_replace_refresh_rows _ _ _ _ _ _ _ E) as [Hnow Hlen].
  unfold FullReplace.get_status. run_monad. unfold count_all.
  cbv beta iota delta [snd].
  rewrite (all_stamped_max _ now Hnow), Hlen. reflexivity.
Qed.

End StatusAfterRefresh.

Lemma status_after_full_replace_witness :
  snd (FullReplace.get_status
         (fst (FullReplace.refresh lowest_draw
                 (Ret (JArr [testland; testland_again])) (Ret usd_rates) 7
                 (boot two_countries))))
  = mkResponse 200 (BStatus 1 (Some 7)).
Proof.
  apply (status_after_full_replace lowest_draw
           (Ret (JArr [testland; testland_again])) (Ret usd_rates) 7
           (boot two_countries) "Successfully refreshed 1 countries" 1 7).
  reflexivity.
Defined.

(** ** Rows an upsert refresh finds in the table *)

Section UpsertAppends.
Variable W : World.

Lemma upsert_turn_appends :
  forall (now : Time) (exchangeRates country : JsVal) (st st' : Server)
         (res : Exn bool),
    Upsert.process_country W now exchangeRates country st = (st', res) ->
    exists added,
      map (fun r => (id r, name r)) (rows (db st'))
      = (map (fun r => (id r, name r)) (rows (db st)) ++ added)%list
      /\ (List.length added <= 1)%nat
      /\ (res <> Ret true -> added = []).
Proof.
  intros now exchangeRates country st st' res H. apply upsert_turn in H.
  destruct H as [[Hdb [_ Hres]] | [stm [c [Hm [Hu Hres]]]]].
  - exists []. rewrite Hdb, app_nil_r. simpl. auto.
  - pose proof (upsert_map_db _ _ _ _ _ _ Hm) as [Hdb _].
    rewrite <- Hdb. apply upsert_cases in Hu.
    destruct Hu as [[e [He _]] | [_ [_ [_ [[_ Hrows] | [_ Hrows]]]]]];
      [discriminate | |]; rewrite Hrows.
    + exists []. rewrite app_nil_r, map_map. simpl.
      split; [| split; [lia | congruence]].
      apply map_ext. intros r. unfold update_row.
      destruct (named (c_name c) r); reflexivity.
    + eexists [_]. rewrite map_app. simpl.
      split; [reflexivity | split; [lia | congruence]].
Qed.

Lemma upsert_loop_appends :
  forall (now : Time) (exchangeRates : JsVal) (batch : list JsVal)
         (processedCount successCount : nat) (st st' : Server)
         (res : Exn (nat * nat)),
    Upsert.process_all W now exchangeRates batch processedCount successCount st
    = (st', res) ->
    exists added,
      map (fun r => (id r, name r)) (rows (db st'))
      = (map (fun r => (id r, name r)) (rows (db st)) ++ added)%list
      /\ (List.length added <= List.length batch)%nat
      /\ forall p s, res = Ret (p, s) ->
                     (successCount + List.length added <= s)%nat.
Proof.
  intros now exchangeRates batch.
  induction batch as [|country rest IH];
    intros processedCount successCount st st' res H.
  - inversion H; subst. exists []. rewrite app_nil_r. simpl.
    repeat split; auto. intros p s E; inversion E; lia.
  - simpl in H. unfold mbind at 1 in H.
    destruct (Upsert.process_country W now exchangeRates country st)
      as [st1 r] eqn:Ht.
    apply upsert_turn_appends in Ht.
    destruct Ht as [added1 [Hkeys1 [Hlen1 Hfail]]].
    destruct r as [ok|e].
    + apply IH in H. destruct H as [added2 [Hkeys2 [Hlen2 Hs]]].
      exists (added1 ++ added2)%list.
      rewrite Hkeys2, Hkeys1, <- app_assoc, length_app. simpl.
      split; [reflexivity |]. split; [lia |].
      intros p s E. apply Hs in E.
      destruct ok; [lia |].
      rewrite Hfail in * by discriminate. simpl in *. lia.
    + inversion H; subst. exists added1. simpl.
      split; [exact Hkeys1 |]. split; [lia | discriminate].
Qed.

(** X11: a refresh of the upsert server never moves, renumbers or renames
    a row it finds: the ids and names of the table before are a prefix of
    those after.  The rows appended are at most 10, and at most as many as
    the [successful] count the answer reports. *)
Theorem upsert_refresh_appends :
  forall (countriesResponse exchangeResponse : Fetch) (now : Time)
         (st : Server),
    exists added,
      map (fun r => (id r, name r))
          (rows (db (fst (Upsert.refresh W countriesResponse exchangeResponse
                                         now st))))
      = (map (fun r => (id r, name r)) (rows (db st)) ++ added)%list
      /\ (List.length added <= Upsert.batch_cap)%nat
      /\ forall msg total_processed successful t,
          body (snd (Upsert.refresh W countriesResponse exchangeResponse
                                    now st))
          = BUpserted msg total_processed successful t ->
          (List.length added <= successful)%nat.
Proof.
  intros countriesResponse exchangeResponse now st.
  assert (Herr : forall e msg p s t,
             body (Upsert.refresh_error e) <> BUpserted msg p s t).
  { intros e msg p s t. unfold Upsert.refresh_error, internal_error.
    destruct (truthy _); discriminate. }
  assert (Hsame : forall e,
             exists added,
               map (fun r => (id r, name r)) (rows (db st))
               = (map (fun r => (id r, name r)) (rows (db st)) ++ added)%list
               /\ (List.length added <= Upsert.batch_cap)%nat
               /\ forall msg p s t,
                   body (Upsert.refresh_error e) = BUpserted msg p s t ->
                   (List.length added <= s)%nat).
  { intros e. exists []. rewrite app_nil_r. simpl.
    split; [reflexivity |]. split; [lia |].
    intros msg p s t E. destruct (Herr _ _ _ _ _ E). }
  unfold Upsert.refresh. run_monad.
  destruct countriesResponse as [countriesData|e]; [| apply Hsame].
  destruct exchangeResponse as [exchangeData|e]; [| apply Hsame].
  destruct (get exchangeData "rates") as [exchangeRates|e]; [| apply Hsame].
  destruct (get countriesData "length") as [len|e]; [| apply Hsame].
  destruct (interpolate len) as [[]|e]; [| apply Hsame].
  destruct (slice_prefix countriesData Upsert.batch_cap) as [batch|e] eqn:Hb;
    [| apply Hsame].
  apply slice_prefix_length in Hb.
  destruct (Upsert.process_all W now exchangeRates batch 0 0 st)
    as [st1 res] eqn:Hloop.
  apply upsert_loop_appends in Hloop.
  destruct Hloop as [added [Hkeys [Hlen Hs]]].
  exists added. destruct res as [[p s]|e]; simpl.
  - split; [exact Hkeys |]. split; [lia |].
    intros msg p' s' t E. injection E as _ _ Hs' _. subst s'.
    apply (Hs p s eq_refl).
  - split; [exact Hkeys |]. split; [lia |].
    intros msg p s t E. destruct (Herr _ _ _ _ _ E).
Qed.

End UpsertAppends.

Lemma upsert_refresh_appends_witness :
  exists added,
    map (fun r => (id r, name r))
        (rows (db (fst (Upsert.refresh lowest_draw
                          (Ret (JArr [aland_second; testland_v2]))
                          (Ret usd_rates) 7 (boot two_countries)))))
    = ([(1, JStr "Aland"); (2, JStr "Bland")] ++ added)%list
    /\ (List.length added <= 2)%nat.
Proof.
  destruct (upsert_refresh_appends lowest_draw
              (Ret (JArr [aland_second; testland_v2])) (Ret usd_rates) 7
              (boot two_countries)) as [added [Hkeys [_ Hcount]]].
  exists added. split; [exact Hkeys |].
  apply (Hcount "Successfully refreshed 2 out of 2 countries" 2%nat 2%nat 7).
  reflexivity.
Defined.

(** ** Routing *)

Section Routing.
Variable W : World.

Lemma full_replace_refresh_statuses :
  forall (countriesResponse exchangeResponse : Fetch) (now : Time)
         (st : Server),
    status (snd (FullReplace.refresh W countriesResponse exchangeResponse
                                     now st)) = 201
    \/ status (snd (FullReplace.refresh W countriesResponse exchangeResponse
                                        now st)) = 503
    \/ status (snd (FullReplace.refresh W countriesResponse exchangeResponse
                                        now st)) = 500.
Proof.
  intros countriesResponse exchangeResponse now st.
  assert (Herr : forall e, status (FullReplace.refresh_error e) = 503
                           \/ status (FullReplace.refresh_error e) = 500).
  { intros e. unfold FullReplace.refresh_error.
    destruct (_ || _); simpl; auto. }
  unfold FullReplace.refresh. run_monad.
  destruct countriesResponse as [countriesData|e]; [| right; apply Herr].
  destruct exchangeResponse as [exchangeData|e]; [| right; apply Herr].
  destruct (get exchangeData "rates") as [exchangeRates|e];
    [| right; apply Herr].
  destruct (get countriesData "length") as [len|e]; [| right; apply Herr].
  destruct (interpolate len) as [[]|e]; [| right; apply Herr].
  simpl.
  destruct (slice_prefix countriesData FullReplace.batch_cap) as [batch|e];
    [| right; apply Herr].
  destruct (FullReplace.process_all W now exchangeRates batch 0 _)
    as [st1 [n|e]]; [left; reflexivity | right; apply Herr].
Qed.

Lemma by_name_statuses :
  forall (countryName : string) (st : Server),
    countryName <> "" ->
    status (snd (FullReplace.get_country countryName st)) <> 400
    /\ status (snd (FullReplace.delete_country countryName st)) <> 400.
Proof.
  intros countryName st Hne.
  pose proof (nonempty_is_truthy countryName Hne) as Ht.
  unfold FullReplace.get_country, FullReplace.delete_country.
  rewrite Ht. simpl. unfold respond, delete_by_name. run_monad. simpl.
  destruct (filter (named (JStr countryName)) (rows (db st)));
    simpl; split; discriminate.
Qed.

(** X12: the order of the routes decides.  [GET /countries/image] is served
    by the route [/countries/:name], registered before it, as the lookup of
    a country called "image"; no request is ever answered with the SVG
    picture.  And since [:name] never stands for an empty segment, no
    request is answered with the 400 of the two by-name handlers. *)
Theorem image_route_is_shadowed :
  forall (m : Method) (path : list string) (i : Inputs) (st : Server),
    app W GET ["countries"; "image"] i st
    = json (FullReplace.get_country "image") st
    /\ (forall total generated,
           snd (app W m path i st) <> Svg total generated)
    /\ (forall r, snd (app W m path i st) = Json r -> status r <> 400).
Proof.
  intros m path i st.
  split; [reflexivity |].
  assert (Hjson : forall (h : Handler) total generated,
             snd (json h st) <> Svg total generated).
  { intros h total generated. unfold json. destruct (h st). discriminate. }
  assert (Hstatus : forall (h : Handler) r,
             status (snd (h st)) <> 400 ->
             snd (json h st) = Json r -> status r <> 400).
  { intros h r Hh. unfold json. destruct (h st) as [st' r']. simpl in *.
    intros E. inversion E; subst. exact Hh. }
  assert (Hne : forall b, String.eqb b "" = false -> b <> "").
  { intros b E ->. discriminate E. }
  unfold app, routes.
  destruct m; destruct path as [|a [|b [|c rest]]];
    cbn -[String.eqb];
    repeat match goal with
           | |- context [String.eqb ?x ?y] =>
               let E := fresh "E" in destruct (String.eqb x y) eqn:E;
               cbn -[String.eqb]
           end;
    try (split; [intros; discriminate | intros; discriminate]);
    try (split; [apply Hjson |]; intros r; apply Hstatus;
         first [ apply by_name_statuses; auto
               | simpl; discriminate
               | destruct (full_replace_refresh_statuses
                             (in_countries i) (in_rates i) (in_now i) st)
                   as [S | [S | S]]; rewrite S; discriminate ]);
    try (split; [intros; discriminate
                | intros r R; inversion R; simpl; discriminate]);
    exfalso;
    repeat match goal with
           | H : String.eqb ?b "" = true |- _ =>
               is_var b; apply String.eqb_eq in H; subst b
           end;
    match goal with
    | H : String.eqb "image" "" = true |- _ => vm_compute in H; discriminate H
    end.
Qed.

End Routing.

Lemma image_route_is_shadowed_witness :
  snd (app lowest_draw GET ["countries"; "image"] plain_inputs
           (boot two_countries))
  = Json not_found.
Proof.
  destruct (image_route_is_shadowed lowest_draw GET ["countries"; "image"]
              plain_inputs (boot two_countries)) as [H _].
  rewrite H. reflexivity.
Defined.

(** ** Records the full-replace server cannot bind *)

Section EmptyCapital.
Variable W : World.

(** X13: the full-replace mapper takes [capital[0]] whenever [capital] is
    truthy.  For a record whose capital list is empty that is [undefined],
    the [INSERT] is refused for an undefined parameter, and the record is
    skipped: its turn does not count and the table stays as it is.  (The
    [catch] block prints the name of the record, which must be one that can
    be turned into a string.) *)
Theorem empty_capital_is_skipped :
  forall (now : Time) (exchangeRates country : JsVal) (st : Server),
    nullish country = false ->
    nullish exchangeRates = false ->
    truthy (get_opt country "capital") = true ->
    get_opt (get_opt country "capital") "0" = JUndefined ->
    convertible (get_opt (get_opt country "name") "common") = true ->
    exists st',
      FullReplace.process_country W now exchangeRates country st
      = (st', Ret false)
      /\ db st' = db st.
Proof.
  intros now exchangeRates country st Hc Hr Hcap Hzero Hname.
  destruct (full_replace_quote_returns W exchangeRates country st Hc Hr)
    as [stq [res [Hq [Hdb [Hres _]]]]].
  unfold FullReplace.process_country, FullReplace.map_country.
  unfold try_catch, mbind, lift, mret, execute_write. rewrite Hq.
  destruct Hres as [-> | [code [rate [gdp ->]]]].
  - rewrite !(get_defined country) by exact Hc.
    unfold interpolate. rewrite Hname.
    exists stq. split; [reflexivity | exact Hdb].
  - rewrite !(get_defined country) by exact Hc.
    rewrite Hcap.
    rewrite (get_defined (get_opt country "capital"))
      by (apply truthy_not_nullish, Hcap).
    rewrite Hzero.
    unfold insert, bind, check_params, insert_params.
    cbn [refused c_name c_capital].
    unfold interpolate. rewrite Hname.
    destruct (is_undefined (js_or (get_opt (get_opt country "name") "common")
                                  (JStr "Unknown")));
      [| destruct (is_function (js_or (get_opt (get_opt country "name")
                                               "common")
                                      (JStr "Unknown")))];
      exists stq; (split; [reflexivity | exact Hdb]).
Qed.

End EmptyCapital.

Lemma empty_capital_is_skipped_witness :
  exists st',
    FullReplace.process_country lowest_draw 7 usd_table no_capital
                                (boot empty_db)
    = (st', Ret false)
    /\ db st' = empty_db.
Proof.
  apply (empty_capital_is_skipped lowest_draw 7 usd_table no_capital
           (boot empty_db)); reflexivity.
Defined.

(** Without the condition on the name the [catch] block throws in its turn
    and the whole refresh is answered with 500. *)
Lemma unprintable_name_aborts_refresh :
  FullReplace.process_country lowest_draw 7 usd_table unprintable_name
                              (boot empty_db)
  = (boot empty_db, Throw conversion_error)
  /\ snd (FullReplace.refresh lowest_draw (Ret (JArr [unprintable_name]))
                              (Ret usd_rates) 7 (boot empty_db))
     = internal_error (Some "Cannot convert object to primitive value").
Proof. split; reflexivity. Qed.

(** ** The processed count *)

Section ProcessedCount.
Variable W : World.

(** X14: [total_processed] of the upsert server counts every record of the
    prefix, failed ones included: it is the length of the list cut at 10;
    and the reported time is the time of the refresh. *)
Theorem total_processed_counts_every_record :
  forall (countriesResponse exchangeResponse : Fetch) (now : Time)
         (st : Server) (msg : string) (total_processed successful : nat)
         (t : Time),
    body (snd (Upsert.refresh W countriesResponse exchangeResponse now st))
    = BUpserted msg total_processed successful t ->
    total_processed
    = List.length (processed_batch countriesResponse Upsert.batch_cap)
    /\ t = now
    /\ lastRefreshTime (fst (Upsert.refresh W countriesResponse
                                            exchangeResponse now st))
       = Some now.
Proof.
  intros countriesResponse exchangeResponse now st msg p s t.
  assert (Herr : forall e, body (Upsert.refresh_error e)
                           <> BUpserted msg p s t).
  { intros e. unfold Upsert.refresh_error, internal_error.
    destruct (truthy _); discriminate. }
  unfold Upsert.refresh, processed_batch. run_monad.
  destruct countriesResponse as [countriesData|e];
    [| intros E; destruct (Herr _ E)].
  destruct exchangeResponse as [exchangeData|e];
    [| intros E; destruct (Herr _ E)].
  destruct (get exchangeData "rates") as [exchangeRates|e];
    [| intros E; destruct (Herr _ E)].
  destruct (get countriesData "length") as [len|e];
    [| intros E; destruct (Herr _ E)].
  destruct (interpolate len) as [[]|e];
    [| intros E; destruct (Herr _ E)].
  destruct (slice_prefix countriesData Upsert.batch_cap) as [batch|e];
    [| intros E; destruct (Herr _ E)].
  destruct (Upsert.process_all W now exchangeRates batch 0 0 st)
    as [st1 [[p' s']|e]] eqn:Hloop; [| intros E; destruct (Herr _ E)].
  simpl. intros E. injection E as _ Hp _ Ht.
  apply upsert_count in Hloop. destruct Hloop as [Hcount _].
  repeat split; [lia | congruence].
Qed.

End ProcessedCount.

Lemma total_processed_counts_every_record_witness :
  body (snd (Upsert.refresh lowest_draw
               (Ret (JArr [aland_first; aland_broken; aland_unpopulated]))
               (Ret usd_rates) 7 (boot empty_db)))
  = BUpserted "Successfully refreshed 1 out of 3 countries" 3 1 7
  /\ (3 = List.length
            (processed_batch
               (Ret (JArr [aland_first; aland_broken; aland_unpopulated]))
               Upsert.batch_cap))%nat.
Proof.
  split; [reflexivity |].
  destruct (total_processed_counts_every_record lowest_draw
              (Ret (JArr [aland_first; aland_broken; aland_unpopulated]))
              (Ret usd_rates) 7 (boot empty_db)
              "Successfully refreshed 1 out of 3 countries" 3%nat 1%nat 7
              eq_refl) as [H _].
  exact H.
Defined.
